(** * Rental property tax model: the calculation engine

    A shallow embedding of the pure calculators of the repository

      - loan-calculations     (repayments, total interest, amortization walk)
      - rental-calculations   (gross rent, expenses, pre-tax cashflow)
      - depreciation-calculations (Division 43 and Division 40)
      - tax-calculations      (flat-rate tax, two-scenario comparison)

    together with the properties the specification states about them.

    Numbers.  A TypeScript [number] is modelled as a real number: the
    calculators are read as functions over exact arithmetic.
    Comparisons of numbers are the boolean tests [num_le], [num_lt] and
    [num_eq]; [Math.max] is [Rmax]; [Math.pow] is the real power, which
    the code only ever calls with a base above one.  Every division of the
    calculators sits behind a guard that makes its divisor non-zero (a
    positive term, or a growth factor above one), so the total division of
    the reals is never read at zero.

    Doubles.  The code runs on IEEE doubles.  Which branch is taken, the
    formula a branch evaluates, the order and the sign of results and the
    shape of lists do not depend on rounding and are stated for every
    input.  Where the exact value of a sum or of a quotient matters, the
    property is stated for loans of ordinary size ([ordinaryLoan]) and up
    to a millionth of the loan amount, a margin that the rounding of the
    at most 360 passes of the schedule stays far below.  Where rounding
    itself decides the result (a rate that vanishes next to 1) the loan
    schedule is embedded a second time, on binary64 numbers with their
    infinities and NaN, in the module [Float64].

    The loop counter and the array index of the amortization schedule are
    kept as the code has them, a number and a position in the array; the
    loop itself carries an explicit bound on its passes, shown to be
    enough for every input.

    Callers.  Beside the calculators the file embeds what uses them: the
    calculation pipeline, the validation and the warnings of
    use-property-model, the advice points of investment-advice, the data
    of the cashflow chart, and the list updaters of use-scenarios.  React state is a value passed in and out; identifiers
    and timestamps that the source draws from the clock or the random
    generator are arguments; text built with the locale formatters is
    left out. *)

From Stdlib Require Import Reals Lra Lia ZArith List Bool String Sorted.
From Stdlib Require Floats.PrimFloat.
Import ListNotations.

Open Scope R_scope.

(** ** Numbers *)

Definition num_le (x y : R) : bool := if Rle_dec x y then true else false.
Definition num_lt (x y : R) : bool := if Rlt_dec x y then true else false.
Definition num_eq (x y : R) : bool := if Req_dec_T x y then true else false.

Definition Math_max (x y : R) : R := Rmax x y.

(** [Math.pow base exponent] for a positive base.  The only call site is
    [Math.pow(1 + monthlyRate, numberOfPayments)] under
    [annualInterestRate > 0]. *)
Definition Math_pow (base exponent : R) : R := Rpower base exponent.

(** ** constants.ts *)

Definition CAPITAL_WORKS_RATE : R := 25 / 1000.
Definition WEEKS_PER_YEAR : R := 52.

(** ** types.ts: the records the calculators read and build *)

Module RentalIncomeInputs.
Record t : Type := mk {
  weeklyRent : R;
  vacancyWeeksPerYear : R
}.
End RentalIncomeInputs.

Module OperatingExpensesInputs.
Record t : Type := mk {
  propertyManagement : R;
  councilRates : R;
  waterRates : R;
  insurance : R;
  repairsMaintenance : R;
  bodyCorporate : R;
  otherExpenses : R;
  otherExpensesDescription : string
}.
End OperatingExpensesInputs.

Module DepreciationInputs.
Record t : Type := mk {
  constructionValue : R;
  plantEquipmentAnnual : R
}.
End DepreciationInputs.

Module CashflowResults.
Record t : Type := mk {
  grossRentalIncome : R;
  totalOperatingExpenses : R;
  interestExpense : R;
  netCashflowPreTax : R
}.
End CashflowResults.

Module DepreciationResults.
Record t : Type := mk {
  capitalWorksDeduction : R;
  plantEquipmentDeduction : R;
  totalDepreciation : R
}.
End DepreciationResults.

Module RentalPLResults.
Record t : Type := mk {
  netCashflowPreTax : R;
  totalDepreciation : R;
  netRentalResult : R;
  isNegativelyGeared : bool
}.
End RentalPLResults.

Module TaxScenarioResults.
Record t : Type := mk {
  taxableIncome : R;
  incomeTax : R;
  medicareLevy : R;
  totalTax : R
}.
End TaxScenarioResults.

Module TaxImpactResults.
Record t : Type := mk {
  withoutProperty : TaxScenarioResults.t;
  withProperty : TaxScenarioResults.t;
  taxBenefit : R;
  afterTaxCashflow : R
}.
End TaxImpactResults.

Module LoanComparisonResults.
Record t : Type := mk {
  monthlyPI : R;
  annualPI : R;
  monthlyIO : R;
  annualIO : R;
  monthlySavingsIO : R;
  totalInterestPI : R;
  totalInterestIO : R;
  extraInterestIO : R;
  principalRemainingIO : R
}.
End LoanComparisonResults.

Module AmortizationMilestone.
Record t : Type := mk {
  year : R;
  principalPaid : R;
  interestPaid : R;
  remainingBalance : R
}.
End AmortizationMilestone.

(** ** tax-calculations.ts *)

Definition calculateIncomeTax (taxableIncome marginalTaxRate : R) : R :=
  let effectiveIncome := Math_max 0 taxableIncome in
  effectiveIncome * marginalTaxRate.

Definition calculateMedicareLevy (taxableIncome medicareLevyRate : R) : R :=
  let effectiveIncome := Math_max 0 taxableIncome in
  effectiveIncome * medicareLevyRate.

Definition calculateTotalTax (incomeTax medicareLevy : R) : R :=
  incomeTax + medicareLevy.

Definition calculateNetRentalResult (netCashflowPreTax totalDepreciation : R) : R :=
  netCashflowPreTax - totalDepreciation.

Definition calculateTaxBenefit (taxWithoutProperty taxWithProperty : R) : R :=
  taxWithoutProperty - taxWithProperty.

Definition calculateTaxScenario
    (taxableIncome marginalTaxRate medicareLevyRate : R) : TaxScenarioResults.t :=
  let incomeTax := calculateIncomeTax taxableIncome marginalTaxRate in
  let medicareLevy := calculateMedicareLevy taxableIncome medicareLevyRate in
  let totalTax := calculateTotalTax incomeTax medicareLevy in
  {| TaxScenarioResults.taxableIncome := taxableIncome;
     TaxScenarioResults.incomeTax := incomeTax;
     TaxScenarioResults.medicareLevy := medicareLevy;
     TaxScenarioResults.totalTax := totalTax |}.

Definition calculateRentalPLResults
    (cashflow : CashflowResults.t) (depreciation : DepreciationResults.t)
    : RentalPLResults.t :=
  let netRentalResult :=
    calculateNetRentalResult
      (CashflowResults.netCashflowPreTax cashflow)
      (DepreciationResults.totalDepreciation depreciation) in
  {| RentalPLResults.netCashflowPreTax := CashflowResults.netCashflowPreTax cashflow;
     RentalPLResults.totalDepreciation := DepreciationResults.totalDepreciation depreciation;
     RentalPLResults.netRentalResult := netRentalResult;
     RentalPLResults.isNegativelyGeared := num_lt netRentalResult 0 |}.

Definition calculateTaxImpactResults
    (baseTaxableIncome netRentalResult netCashflowPreTax
     marginalTaxRate medicareLevyRate : R) : TaxImpactResults.t :=
  let withoutProperty :=
    calculateTaxScenario baseTaxableIncome marginalTaxRate medicareLevyRate in
  let taxableIncomeWithProperty := baseTaxableIncome + netRentalResult in
  let withProperty :=
    calculateTaxScenario taxableIncomeWithProperty marginalTaxRate medicareLevyRate in
  let taxBenefit :=
    calculateTaxBenefit
      (TaxScenarioResults.totalTax withoutProperty)
      (TaxScenarioResults.totalTax withProperty) in
  let afterTaxCashflow := netCashflowPreTax + taxBenefit in
  {| TaxImpactResults.withoutProperty := withoutProperty;
     TaxImpactResults.withProperty := withProperty;
     TaxImpactResults.taxBenefit := taxBenefit;
     TaxImpactResults.afterTaxCashflow := afterTaxCashflow |}.

(** ** rental-calculations.ts *)

Definition calculateGrossRent (weeklyRent vacancyWeeks ownershipPct : R) : R :=
  let rentableWeeks := WEEKS_PER_YEAR - vacancyWeeks in
  rentableWeeks * weeklyRent * ownershipPct.

Definition calculateInterestExpense (loanAmount interestRate ownershipPct : R) : R :=
  loanAmount * interestRate * ownershipPct.

Definition calculateTotalOperatingExpenses
    (expenses : OperatingExpensesInputs.t) (ownershipPct : R) : R :=
  let total :=
    OperatingExpensesInputs.propertyManagement expenses +
    OperatingExpensesInputs.councilRates expenses +
    OperatingExpensesInputs.waterRates expenses +
    OperatingExpensesInputs.insurance expenses +
    OperatingExpensesInputs.repairsMaintenance expenses +
    OperatingExpensesInputs.bodyCorporate expenses +
    OperatingExpensesInputs.otherExpenses expenses in
  total * ownershipPct.

Definition calculateNetCashflowPreTax (grossRent totalExpenses interestExpense : R) : R :=
  grossRent - totalExpenses - interestExpense.

Definition calculateCashflowResults
    (rentalIncome : RentalIncomeInputs.t)
    (operatingExpenses : OperatingExpensesInputs.t)
    (loanAmount interestRate ownershipPct : R) : CashflowResults.t :=
  let grossRentalIncome :=
    calculateGrossRent
      (RentalIncomeInputs.weeklyRent rentalIncome)
      (RentalIncomeInputs.vacancyWeeksPerYear rentalIncome)
      ownershipPct in
  let totalOperatingExpenses :=
    calculateTotalOperatingExpenses operatingExpenses ownershipPct in
  let interestExpense :=
    calculateInterestExpense loanAmount interestRate ownershipPct in
  let netCashflowPreTax :=
    calculateNetCashflowPreTax grossRentalIncome totalOperatingExpenses interestExpense in
  {| CashflowResults.grossRentalIncome := grossRentalIncome;
     CashflowResults.totalOperatingExpenses := totalOperatingExpenses;
     CashflowResults.interestExpense := interestExpense;
     CashflowResults.netCashflowPreTax := netCashflowPreTax |}.

(** ** depreciation-calculations.ts *)

Definition calculateCapitalWorksDeduction (constructionValue ownershipPct : R) : R :=
  constructionValue * CAPITAL_WORKS_RATE * ownershipPct.

Definition calculatePlantEquipmentDeduction (annualEstimate ownershipPct : R) : R :=
  annualEstimate * ownershipPct.

Definition calculateTotalDepreciation (capitalWorks plantEquipment : R) : R :=
  capitalWorks + plantEquipment.

Definition calculateDepreciationResults
    (depreciation : DepreciationInputs.t) (ownershipPct : R) : DepreciationResults.t :=
  let capitalWorksDeduction :=
    calculateCapitalWorksDeduction
      (DepreciationInputs.constructionValue depreciation) ownershipPct in
  let plantEquipmentDeduction :=
    calculatePlantEquipmentDeduction
      (DepreciationInputs.plantEquipmentAnnual depreciation) ownershipPct in
  let totalDepreciation :=
    calculateTotalDepreciation capitalWorksDeduction plantEquipmentDeduction in
  {| DepreciationResults.capitalWorksDeduction := capitalWorksDeduction;
     DepreciationResults.plantEquipmentDeduction := plantEquipmentDeduction;
     DepreciationResults.totalDepreciation := totalDepreciation |}.

(** ** loan-calculations.ts *)

Definition calculateMonthlyPIRepayment
    (loanAmount annualInterestRate loanTermYears : R) : R :=
  if num_le loanAmount 0 || num_le loanTermYears 0 then 0
  else if num_le annualInterestRate 0 then loanAmount / (loanTermYears * 12)
  else
    let monthlyRate := annualInterestRate / 12 in
    let numberOfPayments := loanTermYears * 12 in
    let factor := Math_pow (1 + monthlyRate) numberOfPayments in
    let monthlyPayment := loanAmount * (monthlyRate * factor) / (factor - 1) in
    monthlyPayment.

Definition calculateMonthlyIORepayment (loanAmount annualInterestRate : R) : R :=
  if num_le loanAmount 0 || num_le annualInterestRate 0 then 0
  else (loanAmount * annualInterestRate) / 12.

Definition calculateTotalInterestPI
    (loanAmount annualInterestRate loanTermYears : R) : R :=
  let monthlyPayment :=
    calculateMonthlyPIRepayment loanAmount annualInterestRate loanTermYears in
  let totalPayments := monthlyPayment * loanTermYears * 12 in
  totalPayments - loanAmount.

Definition calculateTotalInterestIO (loanAmount annualInterestRate years : R) : R :=
  loanAmount * annualInterestRate * years.

Definition calculateLoanComparison
    (loanAmount annualInterestRate loanTermYears : R) : LoanComparisonResults.t :=
  let monthlyPI := calculateMonthlyPIRepayment loanAmount annualInterestRate loanTermYears in
  let monthlyIO := calculateMonthlyIORepayment loanAmount annualInterestRate in
  let totalInterestPI := calculateTotalInterestPI loanAmount annualInterestRate loanTermYears in
  let totalInterestIO := calculateTotalInterestIO loanAmount annualInterestRate loanTermYears in
  {| LoanComparisonResults.monthlyPI := monthlyPI;
     LoanComparisonResults.annualPI := monthlyPI * 12;
     LoanComparisonResults.monthlyIO := monthlyIO;
     LoanComparisonResults.annualIO := monthlyIO * 12;
     LoanComparisonResults.monthlySavingsIO := monthlyPI - monthlyIO;
     LoanComparisonResults.totalInterestPI := totalInterestPI;
     LoanComparisonResults.totalInterestIO := totalInterestIO;
     LoanComparisonResults.extraInterestIO := totalInterestIO - totalInterestPI;
     LoanComparisonResults.principalRemainingIO := loanAmount |}.

(** The mutable locals of the schedule loop of
    [calculateAmortizationMilestones]. *)
Record ScheduleState : Type := mkScheduleState {
  balance : R;
  totalPrincipalPaid : R;
  totalInterestPaid : R;
  currentMilestoneIndex : nat;
  milestones : list AmortizationMilestone.t
}.

(** One pass through the loop body at [month].  Reading
    [milestoneYears[currentMilestoneIndex]] past the end of the array gives
    [undefined], whose product with 12 is never [===] to [month]. *)
Definition scheduleMonth
    (monthlyRate monthlyPayment : R) (milestoneYears : list R)
    (month : R) (s : ScheduleState) : ScheduleState :=
  let interestPayment := balance s * monthlyRate in
  let principalPayment := monthlyPayment - interestPayment in
  let balance' := balance s - principalPayment in
  let totalPrincipalPaid' := totalPrincipalPaid s + principalPayment in
  let totalInterestPaid' := totalInterestPaid s + interestPayment in
  match nth_error milestoneYears (currentMilestoneIndex s) with
  | Some y =>
      if num_eq month (y * 12) then
        {| balance := balance';
           totalPrincipalPaid := totalPrincipalPaid';
           totalInterestPaid := totalInterestPaid';
           currentMilestoneIndex := S (currentMilestoneIndex s);
           milestones :=
             milestones s ++
             [ {| AmortizationMilestone.year := y;
                  AmortizationMilestone.principalPaid := totalPrincipalPaid';
                  AmortizationMilestone.interestPaid := totalInterestPaid';
                  AmortizationMilestone.remainingBalance := Math_max 0 balance' |} ] |}
      else
        {| balance := balance';
           totalPrincipalPaid := totalPrincipalPaid';
           totalInterestPaid := totalInterestPaid';
           currentMilestoneIndex := currentMilestoneIndex s;
           milestones := milestones s |}
  | None =>
      {| balance := balance';
         totalPrincipalPaid := totalPrincipalPaid';
         totalInterestPaid := totalInterestPaid';
         currentMilestoneIndex := currentMilestoneIndex s;
         milestones := milestones s |}
  end.

(** The [for] loop, from [month] on.  [fuel] bounds the number of passes;
    [None] means the bound was reached before the loop condition failed. *)
Fixpoint scheduleLoop (fuel : nat)
    (monthlyRate monthlyPayment loanTermYears : R) (milestoneYears : list R)
    (month : R) (s : ScheduleState) : option (list AmortizationMilestone.t) :=
  match fuel with
  | O => None
  | S fuel' =>
      if num_le month (loanTermYears * 12)
         && (currentMilestoneIndex s <? List.length milestoneYears)%nat
      then
        scheduleLoop fuel' monthlyRate monthlyPayment loanTermYears milestoneYears
          (month + 1)
          (scheduleMonth monthlyRate monthlyPayment milestoneYears month s)
      else Some (milestones s)
  end.

Definition requestedMilestoneYears : list R := [1; 5; 10; 15; 20; 25; 30].

Definition calculateAmortizationMilestones_fuel (fuel : nat)
    (loanAmount annualInterestRate loanTermYears : R)
    : option (list AmortizationMilestone.t) :=
  if num_le loanAmount 0 || num_le annualInterestRate 0 || num_le loanTermYears 0
  then Some []
  else
    let monthlyRate := annualInterestRate / 12 in
    let monthlyPayment :=
      calculateMonthlyPIRepayment loanAmount annualInterestRate loanTermYears in
    let milestoneYears :=
      filter (fun y => num_le y loanTermYears) requestedMilestoneYears in
    scheduleLoop fuel monthlyRate monthlyPayment loanTermYears milestoneYears 1
      {| balance := loanAmount;
         totalPrincipalPaid := 0;
         totalInterestPaid := 0;
         currentMilestoneIndex := 0;
         milestones := [] |}.

(** The last requested milestone is year 30, so the loop is left after at
    most 360 passes whatever the term ([schedule_fuel_enough] below). *)
Definition scheduleFuel : nat := 361.

Definition calculateAmortizationMilestones
    (loanAmount annualInterestRate loanTermYears : R)
    : list AmortizationMilestone.t :=
  match calculateAmortizationMilestones_fuel scheduleFuel
          loanAmount annualInterestRate loanTermYears with
  | Some ms => ms
  | None => []
  end.

(** The declining-balance walk on its own: balance, cumulative principal
    and cumulative interest after [k] monthly payments. *)
Definition walkMonth (monthlyRate monthlyPayment : R) (w : R * R * R) : R * R * R :=
  let '(b, p, i) := w in
  let interestPayment := b * monthlyRate in
  let principalPayment := monthlyPayment - interestPayment in
  (b - principalPayment, p + principalPayment, i + interestPayment).

Fixpoint walk (monthlyRate monthlyPayment loanAmount : R) (k : nat) : R * R * R :=
  match k with
  | O => (loanAmount, 0, 0)
  | S k' => walkMonth monthlyRate monthlyPayment (walk monthlyRate monthlyPayment loanAmount k')
  end.

Definition snapshot (y : R) (w : R * R * R) : AmortizationMilestone.t :=
  {| AmortizationMilestone.year := y;
     AmortizationMilestone.principalPaid := snd (fst w);
     AmortizationMilestone.interestPaid := snd w;
     AmortizationMilestone.remainingBalance := Math_max 0 (fst (fst w)) |}.

(** The milestone the walk yields for year [y]: the snapshot at month
    [y * 12]. *)
Definition milestoneAt
    (loanAmount annualInterestRate loanTermYears : R) (y : Z) : AmortizationMilestone.t :=
  snapshot (IZR y)
    (walk (annualInterestRate / 12)
          (calculateMonthlyPIRepayment loanAmount annualInterestRate loanTermYears)
          loanAmount (Z.to_nat (y * 12))).

(** Strictly increasing / non-increasing sequences of numbers. *)
Definition strictlyIncreasing (l : list R) : Prop := StronglySorted Rlt l.
Definition nonIncreasing (l : list R) : Prop := StronglySorted Rge l.

(** The three running totals held in a loop state. *)
Definition runningTotals (s : ScheduleState) : R * R * R :=
  (balance s, totalPrincipalPaid s, totalInterestPaid s).

(** The requested milestone years as integers; [requestedMilestoneYears]
    is their image in the numbers ([requestedMilestoneYears_integers]). *)
Definition requestedYears : list Z := [1; 5; 10; 15; 20; 25; 30]%Z.

(** ** types.ts: the input groups and the aggregate records *)

Module PersonalInputs.
Record t : Type := mk {
  baseTaxableIncome : R;
  ownershipPercentage : R;
  marginalTaxRate : R;
  medicareLevyRate : R
}.
End PersonalInputs.

Module PropertyPurchaseInputs.
Record t : Type := mk {
  purchasePrice : R;
  loanAmount : R;
  interestRate : R;
  loanTermYears : R;
  isInterestOnly : bool;
  settlementDate : string
}.
End PropertyPurchaseInputs.

Module PropertyModelInputs.
Record t : Type := mk {
  personal : PersonalInputs.t;
  propertyPurchase : PropertyPurchaseInputs.t;
  rentalIncome : RentalIncomeInputs.t;
  operatingExpenses : OperatingExpensesInputs.t;
  depreciation : DepreciationInputs.t
}.
End PropertyModelInputs.

Module PropertyModelResults.
Record t : Type := mk {
  cashflow : CashflowResults.t;
  depreciation : DepreciationResults.t;
  rentalPL : RentalPLResults.t;
  taxImpact : TaxImpactResults.t
}.
End PropertyModelResults.

Module ValidationError.
Record t : Type := mk {
  field : string;
  message : string
}.
End ValidationError.

Module ValidationWarning.
Record t : Type := mk {
  field : string;
  message : string
}.
End ValidationWarning.

Module ValidationState.
Record t : Type := mk {
  isValid : bool;
  errors : list ValidationError.t;
  warnings : list ValidationWarning.t
}.
End ValidationState.

(** ** constants.ts: VALIDATION_LIMITS *)

Module VALIDATION_LIMITS.
Definition MIN_WEEKLY_RENT : R := 0.
Definition MAX_WEEKLY_RENT : R := 10000.
Definition MIN_VACANCY_WEEKS : R := 0.
Definition MAX_VACANCY_WEEKS : R := 52.
Definition MIN_OWNERSHIP_PCT : R := 0.
Definition MAX_OWNERSHIP_PCT : R := 100.
Definition MIN_INTEREST_RATE : R := 0.
Definition MAX_INTEREST_RATE : R := 25 / 100.
Definition MIN_LOAN_TERM : R := 1.
Definition MAX_LOAN_TERM : R := 40.
Definition MIN_MARGINAL_RATE : R := 0.
Definition MAX_MARGINAL_RATE : R := 47 / 100.
Definition MIN_MEDICARE_RATE : R := 0.
Definition MAX_MEDICARE_RATE : R := 35 / 1000.
End VALIDATION_LIMITS.

(** ** types.ts: DEFAULT_INPUTS, with the settlement date (today's date
    in the source) as an argument *)

Definition DEFAULT_INPUTS (today : string) : PropertyModelInputs.t :=
  {| PropertyModelInputs.personal :=
       {| PersonalInputs.baseTaxableIncome := 100000;
          PersonalInputs.ownershipPercentage := 100;
          PersonalInputs.marginalTaxRate := 37 / 100;
          PersonalInputs.medicareLevyRate := 2 / 100 |};
     PropertyModelInputs.propertyPurchase :=
       {| PropertyPurchaseInputs.purchasePrice := 600000;
          PropertyPurchaseInputs.loanAmount := 480000;
          PropertyPurchaseInputs.interestRate := 6 / 100;
          PropertyPurchaseInputs.loanTermYears := 30;
          PropertyPurchaseInputs.isInterestOnly := true;
          PropertyPurchaseInputs.settlementDate := today |};
     PropertyModelInputs.rentalIncome :=
       {| RentalIncomeInputs.weeklyRent := 550;
          RentalIncomeInputs.vacancyWeeksPerYear := 2 |};
     PropertyModelInputs.operatingExpenses :=
       {| OperatingExpensesInputs.propertyManagement := 1500;
          OperatingExpensesInputs.councilRates := 2000;
          OperatingExpensesInputs.waterRates := 1000;
          OperatingExpensesInputs.insurance := 1500;
          OperatingExpensesInputs.repairsMaintenance := 1000;
          OperatingExpensesInputs.bodyCorporate := 0;
          OperatingExpensesInputs.otherExpenses := 0;
          OperatingExpensesInputs.otherExpensesDescription := EmptyString |};
     PropertyModelInputs.depreciation :=
       {| DepreciationInputs.constructionValue := 300000;
          DepreciationInputs.plantEquipmentAnnual := 5000 |} |}.

(** ** use-property-model.ts *)

(** The body of the [results] memo of [usePropertyModel]: the four
    calculators in dependency order on one snapshot of the inputs. *)
Definition usePropertyModel_results (inputs : PropertyModelInputs.t)
    : PropertyModelResults.t :=
  let ownershipDecimal :=
    PersonalInputs.ownershipPercentage (PropertyModelInputs.personal inputs) / 100 in
  let cashflow :=
    calculateCashflowResults
      (PropertyModelInputs.rentalIncome inputs)
      (PropertyModelInputs.operatingExpenses inputs)
      (PropertyPurchaseInputs.loanAmount (PropertyModelInputs.propertyPurchase inputs))
      (PropertyPurchaseInputs.interestRate (PropertyModelInputs.propertyPurchase inputs))
      ownershipDecimal in
  let depreciation :=
    calculateDepreciationResults (PropertyModelInputs.depreciation inputs) ownershipDecimal in
  let rentalPL := calculateRentalPLResults cashflow depreciation in
  let taxImpact :=
    calculateTaxImpactResults
      (PersonalInputs.baseTaxableIncome (PropertyModelInputs.personal inputs))
      (RentalPLResults.netRentalResult rentalPL)
      (CashflowResults.netCashflowPreTax cashflow)
      (PersonalInputs.marginalTaxRate (PropertyModelInputs.personal inputs))
      (PersonalInputs.medicareLevyRate (PropertyModelInputs.personal inputs)) in
  {| PropertyModelResults.cashflow := cashflow;
     PropertyModelResults.depreciation := depreciation;
     PropertyModelResults.rentalPL := rentalPL;
     PropertyModelResults.taxImpact := taxImpact |}.

(** An issue of the zod schema: the path of the offending key and the
    message attached to the failed check. *)
Record ZodIssue : Type := mkZodIssue {
  path : list string;
  issueMessage : string
}.

(** [z.number().min(lo, msg)] reports [msg] when the value is below [lo],
    [.max(hi, msg)] when it is above [hi]; both bounds are inclusive.  A
    value typed [number] passes the type test of [z.number()] unless it is
    NaN, which the reals do not have; [z.boolean()] and [z.string()] accept
    every value of their type. *)
Definition zodMin (key : string) (lo : R) (msg : string) (v : R) : list ZodIssue :=
  if num_lt v lo then [ {| path := [key]; issueMessage := msg |} ] else [].

Definition zodMax (key : string) (hi : R) (msg : string) (v : R) : list ZodIssue :=
  if num_lt hi v then [ {| path := [key]; issueMessage := msg |} ] else [].

(** The issues of a nested object carry the key of that object in front. *)
Definition zodNested (key : string) (issues : list ZodIssue) : list ZodIssue :=
  map (fun i => {| path := key :: path i; issueMessage := issueMessage i |}) issues.

Definition personalSchema (v : PersonalInputs.t) : list ZodIssue :=
  zodMin "baseTaxableIncome" 0 "Income cannot be negative"
    (PersonalInputs.baseTaxableIncome v)
  ++ zodMin "ownershipPercentage" VALIDATION_LIMITS.MIN_OWNERSHIP_PCT
       "Ownership must be at least 0%" (PersonalInputs.ownershipPercentage v)
  ++ zodMax "ownershipPercentage" VALIDATION_LIMITS.MAX_OWNERSHIP_PCT
       "Ownership cannot exceed 100%" (PersonalInputs.ownershipPercentage v)
  ++ zodMin "marginalTaxRate" VALIDATION_LIMITS.MIN_MARGINAL_RATE
       "Tax rate cannot be negative" (PersonalInputs.marginalTaxRate v)
  ++ zodMax "marginalTaxRate" VALIDATION_LIMITS.MAX_MARGINAL_RATE
       "Tax rate cannot exceed 47%" (PersonalInputs.marginalTaxRate v)
  ++ zodMin "medicareLevyRate" VALIDATION_LIMITS.MIN_MEDICARE_RATE
       "Medicare rate cannot be negative" (PersonalInputs.medicareLevyRate v)
  ++ zodMax "medicareLevyRate" VALIDATION_LIMITS.MAX_MEDICARE_RATE
       "Medicare rate cannot exceed 3.5%" (PersonalInputs.medicareLevyRate v).

Definition propertyPurchaseSchema (v : PropertyPurchaseInputs.t) : list ZodIssue :=
  zodMin "purchasePrice" 0 "Purchase price cannot be negative"
    (PropertyPurchaseInputs.purchasePrice v)
  ++ zodMin "loanAmount" 0 "Loan amount cannot be negative"
       (PropertyPurchaseInputs.loanAmount v)
  ++ zodMin "interestRate" VALIDATION_LIMITS.MIN_INTEREST_RATE
       "Interest rate cannot be negative" (PropertyPurchaseInputs.interestRate v)
  ++ zodMax "interestRate" VALIDATION_LIMITS.MAX_INTEREST_RATE
       "Interest rate seems too high" (PropertyPurchaseInputs.interestRate v)
  ++ zodMin "loanTermYears" VALIDATION_LIMITS.MIN_LOAN_TERM
       "Loan term must be at least 1 year" (PropertyPurchaseInputs.loanTermYears v)
  ++ zodMax "loanTermYears" VALIDATION_LIMITS.MAX_LOAN_TERM
       "Loan term cannot exceed 40 years" (PropertyPurchaseInputs.loanTermYears v).

Definition rentalIncomeSchema (v : RentalIncomeInputs.t) : list ZodIssue :=
  zodMin "weeklyRent" VALIDATION_LIMITS.MIN_WEEKLY_RENT
    "Weekly rent cannot be negative" (RentalIncomeInputs.weeklyRent v)
  ++ zodMax "weeklyRent" VALIDATION_LIMITS.MAX_WEEKLY_RENT
       "Weekly rent seems too high" (RentalIncomeInputs.weeklyRent v)
  ++ zodMin "vacancyWeeksPerYear" VALIDATION_LIMITS.MIN_VACANCY_WEEKS
       "Vacancy weeks cannot be negative" (RentalIncomeInputs.vacancyWeeksPerYear v)
  ++ zodMax "vacancyWeeksPerYear" VALIDATION_LIMITS.MAX_VACANCY_WEEKS
       "Vacancy weeks cannot exceed 52" (RentalIncomeInputs.vacancyWeeksPerYear v).

Definition operatingExpensesSchema (v : OperatingExpensesInputs.t) : list ZodIssue :=
  zodMin "propertyManagement" 0 "Cannot be negative"
    (OperatingExpensesInputs.propertyManagement v)
  ++ zodMin "councilRates" 0 "Cannot be negative" (OperatingExpensesInputs.councilRates v)
  ++ zodMin "waterRates" 0 "Cannot be negative" (OperatingExpensesInputs.waterRates v)
  ++ zodMin "insurance" 0 "Cannot be negative" (OperatingExpensesInputs.insurance v)
  ++ zodMin "repairsMaintenance" 0 "Cannot be negative"
       (OperatingExpensesInputs.repairsMaintenance v)
  ++ zodMin "bodyCorporate" 0 "Cannot be negative" (OperatingExpensesInputs.bodyCorporate v)
  ++ zodMin "otherExpenses" 0 "Cannot be negative" (OperatingExpensesInputs.otherExpenses v).

Definition depreciationSchema (v : DepreciationInputs.t) : list ZodIssue :=
  zodMin "constructionValue" 0 "Cannot be negative" (DepreciationInputs.constructionValue v)
  ++ zodMin "plantEquipmentAnnual" 0 "Cannot be negative"
       (DepreciationInputs.plantEquipmentAnnual v).

Definition propertyModelSchema (inputs : PropertyModelInputs.t) : list ZodIssue :=
  zodNested "personal" (personalSchema (PropertyModelInputs.personal inputs))
  ++ zodNested "propertyPurchase"
       (propertyPurchaseSchema (PropertyModelInputs.propertyPurchase inputs))
  ++ zodNested "rentalIncome"
       (rentalIncomeSchema (PropertyModelInputs.rentalIncome inputs))
  ++ zodNested "operatingExpenses"
       (operatingExpensesSchema (PropertyModelInputs.operatingExpenses inputs))
  ++ zodNested "depreciation"
       (depreciationSchema (PropertyModelInputs.depreciation inputs)).

Definition validateInputs (inputs : PropertyModelInputs.t) : ValidationState.t :=
  let errors :=
    map (fun err =>
           {| ValidationError.field := String.concat "." (path err);
              ValidationError.message := issueMessage err |})
        (propertyModelSchema inputs) in
  let warnings :=
    (if num_lt
          (PropertyPurchaseInputs.purchasePrice (PropertyModelInputs.propertyPurchase inputs))
          (PropertyPurchaseInputs.loanAmount (PropertyModelInputs.propertyPurchase inputs))
     then [ {| ValidationWarning.field := "propertyPurchase.loanAmount";
               ValidationWarning.message := "Loan amount exceeds purchase price" |} ]
     else [])
    ++
    (if num_lt
          (PropertyPurchaseInputs.purchasePrice (PropertyModelInputs.propertyPurchase inputs))
          (DepreciationInputs.constructionValue (PropertyModelInputs.depreciation inputs))
     then [ {| ValidationWarning.field := "depreciation.constructionValue";
               ValidationWarning.message :=
                 "Construction value exceeds purchase price (check land value)" |} ]
     else []) in
  {| ValidationState.isValid := Nat.eqb (List.length errors) 0;
     ValidationState.errors := errors;
     ValidationState.warnings := warnings |}.

Definition generateWarnings
    (inputs : PropertyModelInputs.t) (results : PropertyModelResults.t)
    : list ValidationWarning.t :=
  (if num_lt (RentalPLResults.netRentalResult (PropertyModelResults.rentalPL results)) 0
   then
     let lossAmount :=
       Rabs (RentalPLResults.netRentalResult (PropertyModelResults.rentalPL results)) in
     if num_lt
          (PersonalInputs.baseTaxableIncome (PropertyModelInputs.personal inputs) * (5 / 10))
          lossAmount
     then [ {| ValidationWarning.field := "rentalPL.netRentalResult";
               ValidationWarning.message :=
                 "Rental loss exceeds 50% of your base income - high negative gearing" |} ]
     else []
   else [])
  ++
  (if num_eq
        (DepreciationResults.totalDepreciation (PropertyModelResults.depreciation results)) 0
   then [ {| ValidationWarning.field := "depreciation";
             ValidationWarning.message :=
               "No depreciation claimed - consider getting a quantity surveyor report" |} ]
   else []).

(** ** investment-advice.tsx: which advice points are pushed *)

Inductive AdviceType : Type := positive | negative | neutral | warning.

(** An advice point, by its title and type.  The icon, its colour and the
    description (a sentence built with the currency formatter) are display
    details and are left out. *)
Record AdvicePoint : Type := mkAdvicePoint {
  title : string;
  type : AdviceType
}.

(** [lvr > 80] for [lvr = (loanAmount / purchasePrice) * 100].  A division
    by zero gives an infinity of the sign of the loan amount, or NaN for
    0/0; of these only plus infinity is above 80. *)
Definition lvrAbove80 (loanAmount purchasePrice : R) : bool :=
  if num_eq purchasePrice 0 then num_lt 0 loanAmount
  else num_lt 80 (loanAmount / purchasePrice * 100).

Definition advicePoints
    (taxImpact : TaxImpactResults.t) (rentalPL : RentalPLResults.t)
    (marginalTaxRate loanAmount purchasePrice : R) (isInterestOnly : bool)
    : list AdvicePoint :=
  let isNegativelyGeared := RentalPLResults.isNegativelyGeared rentalPL in
  let taxBenefit := TaxImpactResults.taxBenefit taxImpact in
  let afterTaxCashflow := TaxImpactResults.afterTaxCashflow taxImpact in
  (if isNegativelyGeared
   then if num_lt 0 taxBenefit
        then [ {| title := "Negatively Geared Property"; type := neutral |} ]
        else []
   else [ {| title := "Positively Geared Property"; type := positive |} ])
  ++ (if num_lt afterTaxCashflow 0
      then [ {| title := "Out-of-Pocket Contribution Required"; type := warning |} ]
      else [ {| title := "Positive After-Tax Cashflow"; type := positive |} ])
  ++ (if lvrAbove80 loanAmount purchasePrice
      then [ {| title := "High Loan-to-Value Ratio"; type := neutral |} ]
      else [])
  ++ (if isInterestOnly
      then [ {| title := "Interest-Only Loan Structure"; type := neutral |} ]
      else [])
  ++ (if num_le 37 marginalTaxRate && isNegativelyGeared
      then [ {| title := "Tax Bracket Advantage"; type := positive |} ]
      else []).

(** ** cashflow-chart.tsx *)

Inductive ViewMode : Type := annual | monthly.

(** The bars of [CashflowChart] (name and value; the fill colour is left
    out) and the net figure shown with them. *)
Definition cashflowChartDivisor (viewMode : ViewMode) : R :=
  match viewMode with monthly => 12 | annual => 1 end.

Definition cashflowChartData
    (cashflow : CashflowResults.t) (taxImpact : TaxImpactResults.t)
    (viewMode : ViewMode) : list (string * R) :=
  let divisor := cashflowChartDivisor viewMode in
  [ ("Rent"%string, CashflowResults.grossRentalIncome cashflow / divisor);
    ("Expenses"%string, - (CashflowResults.totalOperatingExpenses cashflow / divisor));
    ("Interest"%string, - (CashflowResults.interestExpense cashflow / divisor));
    ("Tax Effect"%string, TaxImpactResults.taxBenefit taxImpact / divisor) ].

Definition cashflowChartNet
    (cashflow : CashflowResults.t) (taxImpact : TaxImpactResults.t)
    (viewMode : ViewMode) : R :=
  let divisor := cashflowChartDivisor viewMode in
  (CashflowResults.netCashflowPreTax cashflow + TaxImpactResults.taxBenefit taxImpact)
  / divisor.

(** ** use-scenarios.ts: the list of saved scenarios and its updaters *)

Module SavedScenario.
Record t : Type := mk {
  id : string;
  name : string;
  inputs : PropertyModelInputs.t;
  createdAt : string;
  updatedAt : string
}.
End SavedScenario.

(** The updaters take the fresh identifier ([generateId()]) and the
    current time ([new Date().toISOString()]) as arguments. *)
Definition saveScenario (newId now : string)
    (name : string) (inputs : PropertyModelInputs.t)
    (prev : list SavedScenario.t) : SavedScenario.t * list SavedScenario.t :=
  let newScenario :=
    {| SavedScenario.id := newId;
       SavedScenario.name := name;
       SavedScenario.inputs := inputs;
       SavedScenario.createdAt := now;
       SavedScenario.updatedAt := now |} in
  (newScenario, prev ++ [newScenario]).

Definition updateScenario (now : string)
    (id : string) (inputs : PropertyModelInputs.t) (name : option string)
    (prev : list SavedScenario.t) : list SavedScenario.t :=
  map (fun scenario =>
         if String.eqb (SavedScenario.id scenario) id then
           {| SavedScenario.id := SavedScenario.id scenario;
              SavedScenario.name :=
                match name with
                | Some n => n
                | None => SavedScenario.name scenario
                end;
              SavedScenario.inputs := inputs;
              SavedScenario.createdAt := SavedScenario.createdAt scenario;
              SavedScenario.updatedAt := now |}
         else scenario)
      prev.

Definition deleteScenario (id : string) (prev : list SavedScenario.t)
    : list SavedScenario.t :=
  filter (fun scenario => negb (String.eqb (SavedScenario.id scenario) id)) prev.

Definition getScenario (id : string) (scenarios : list SavedScenario.t)
    : option SavedScenario.t :=
  find (fun scenario => String.eqb (SavedScenario.id scenario) id) scenarios.

Definition renameScenario (now : string) (id newName : string)
    (prev : list SavedScenario.t) : list SavedScenario.t :=
  map (fun scenario =>
         if String.eqb (SavedScenario.id scenario) id then
           {| SavedScenario.id := SavedScenario.id scenario;
              SavedScenario.name := newName;
              SavedScenario.inputs := SavedScenario.inputs scenario;
              SavedScenario.createdAt := SavedScenario.createdAt scenario;
              SavedScenario.updatedAt := now |}
         else scenario)
      prev.

(** [JSON.parse(JSON.stringify(inputs))] rebuilds a record of finite
    numbers, booleans and strings field by field: an equal value.  The
    lookup and the append read the same list of scenarios. *)
Definition duplicateScenario (newId now : string)
    (id : string) (scenarios : list SavedScenario.t)
    : option SavedScenario.t * list SavedScenario.t :=
  match find (fun s => String.eqb (SavedScenario.id s) id) scenarios with
  | None => (None, scenarios)
  | Some original =>
      let newScenario :=
        {| SavedScenario.id := newId;
           SavedScenario.name := String.append (SavedScenario.name original) " (Copy)";
           SavedScenario.inputs := SavedScenario.inputs original;
           SavedScenario.createdAt := now;
           SavedScenario.updatedAt := now |} in
      (Some newScenario, scenarios ++ [newScenario])
  end.

(** The ranges that [propertyModelSchema] declares, in the order of its
    keys. *)
Definition withinValidationLimits (inputs : PropertyModelInputs.t) : Prop :=
  let personal := PropertyModelInputs.personal inputs in
  let purchase := PropertyModelInputs.propertyPurchase inputs in
  let rent := PropertyModelInputs.rentalIncome inputs in
  let expenses := PropertyModelInputs.operatingExpenses inputs in
  let depreciation := PropertyModelInputs.depreciation inputs in
  (0 <= PersonalInputs.baseTaxableIncome personal /\
   0 <= PersonalInputs.ownershipPercentage personal <= 100 /\
   0 <= PersonalInputs.marginalTaxRate personal <= 47 / 100 /\
   0 <= PersonalInputs.medicareLevyRate personal <= 35 / 1000) /\
  (0 <= PropertyPurchaseInputs.purchasePrice purchase /\
   0 <= PropertyPurchaseInputs.loanAmount purchase /\
   0 <= PropertyPurchaseInputs.interestRate purchase <= 25 / 100 /\
   1 <= PropertyPurchaseInputs.loanTermYears purchase <= 40) /\
  (0 <= RentalIncomeInputs.weeklyRent rent <= 10000 /\
   0 <= RentalIncomeInputs.vacancyWeeksPerYear rent <= 52) /\
  (0 <= OperatingExpensesInputs.propertyManagement expenses /\
   0 <= OperatingExpensesInputs.councilRates expenses /\
   0 <= OperatingExpensesInputs.waterRates expenses /\
   0 <= OperatingExpensesInputs.insurance expenses /\
   0 <= OperatingExpensesInputs.repairsMaintenance expenses /\
   0 <= OperatingExpensesInputs.bodyCorporate expenses /\
   0 <= OperatingExpensesInputs.otherExpenses expenses) /\
  (0 <= DepreciationInputs.constructionValue depreciation /\
   0 <= DepreciationInputs.plantEquipmentAnnual depreciation).

(** ** loan-calculations.ts on IEEE doubles

    The repayment and the schedule once more, on binary64 numbers: every
    operation rounds to nearest, a division by zero gives an infinity, and
    comparisons with NaN are false.  The definitions follow the source line
    by line as the ones above do; only the type of the numbers differs. *)

Module Float64.
Import PrimFloat.
Local Open Scope float_scope.

Module AmortizationMilestone.
Record t : Type := mk {
  year : float;
  principalPaid : float;
  interestPaid : float;
  remainingBalance : float
}.
End AmortizationMilestone.

(** [Math.max] of two numbers: NaN if either is NaN, and +0 counts as
    larger than -0. *)
Definition Math_max (x y : float) : float :=
  if is_nan x || is_nan y then nan
  else if x <? y then y
  else if y <? x then x
  else if get_sign x then y else x.

(** [Math.pow].  ECMAScript fixes the result for a NaN or zero exponent and
    for a NaN base, and gives NaN for the base 1 with an infinite exponent;
    the base 1 with a finite exponent gives the exact power 1, as IEEE 754
    has it.  Every other power is an approximation that the language leaves
    to the implementation: there the model gives no value. *)
Definition Math_pow (base exponent : float) : option float :=
  if is_nan exponent then Some nan
  else if exponent =? 0 then Some 1
  else if is_nan base then Some nan
  else if base =? 1 then (if is_infinity exponent then Some nan else Some 1)
  else None.

Definition calculateMonthlyPIRepayment
    (loanAmount annualInterestRate loanTermYears : float) : option float :=
  if (loanAmount <=? 0) || (loanTermYears <=? 0) then Some 0
  else if annualInterestRate <=? 0 then Some (loanAmount / (loanTermYears * 12))
  else
    let monthlyRate := annualInterestRate / 12 in
    let numberOfPayments := loanTermYears * 12 in
    match Math_pow (1 + monthlyRate) numberOfPayments with
    | Some factor =>
        let monthlyPayment := loanAmount * (monthlyRate * factor) / (factor - 1) in
        Some monthlyPayment
    | None => None
    end.

Record ScheduleState : Type := mkScheduleState {
  balance : float;
  totalPrincipalPaid : float;
  totalInterestPaid : float;
  currentMilestoneIndex : nat;
  milestones : list AmortizationMilestone.t
}.

Definition scheduleMonth
    (monthlyRate monthlyPayment : float) (milestoneYears : list float)
    (month : float) (s : ScheduleState) : ScheduleState :=
  let interestPayment := balance s * monthlyRate in
  let principalPayment := monthlyPayment - interestPayment in
  let balance' := balance s - principalPayment in
  let totalPrincipalPaid' := totalPrincipalPaid s + principalPayment in
  let totalInterestPaid' := totalInterestPaid s + interestPayment in
  match nth_error milestoneYears (currentMilestoneIndex s) with
  | Some y =>
      if month =? y * 12 then
        {| balance := balance';
           totalPrincipalPaid := totalPrincipalPaid';
           totalInterestPaid := totalInterestPaid';
           currentMilestoneIndex := S (currentMilestoneIndex s);
           milestones :=
             milestones s ++
             [ {| AmortizationMilestone.year := y;
                  AmortizationMilestone.principalPaid := totalPrincipalPaid';
                  AmortizationMilestone.interestPaid := totalInterestPaid';
                  AmortizationMilestone.remainingBalance := Math_max 0 balance' |} ] |}
      else
        {| balance := balance';
           totalPrincipalPaid := totalPrincipalPaid';
           totalInterestPaid := totalInterestPaid';
           currentMilestoneIndex := currentMilestoneIndex s;
           milestones := milestones s |}
  | None =>
      {| balance := balance';
         totalPrincipalPaid := totalPrincipalPaid';
         totalInterestPaid := totalInterestPaid';
         currentMilestoneIndex := currentMilestoneIndex s;
         milestones := milestones s |}
  end.

Fixpoint scheduleLoop (fuel : nat)
    (monthlyRate monthlyPayment loanTermYears : float) (milestoneYears : list float)
    (month : float) (s : ScheduleState) : option (list AmortizationMilestone.t) :=
  match fuel with
  | O => None
  | S fuel' =>
      if (month <=? loanTermYears * 12)
         && (currentMilestoneIndex s <? List.length milestoneYears)%nat
      then
        scheduleLoop fuel' monthlyRate monthlyPayment loanTermYears milestoneYears
          (month + 1)
          (scheduleMonth monthlyRate monthlyPayment milestoneYears month s)
      else Some (milestones s)
  end.

Definition requestedMilestoneYears : list float := [1; 5; 10; 15; 20; 25; 30].

(** [None] when the repayment needs a power the model gives no value for,
    or when the loop is not left within [scheduleFuel] passes. *)
Definition calculateAmortizationMilestones
    (loanAmount annualInterestRate loanTermYears : float)
    : option (list AmortizationMilestone.t) :=
  if (loanAmount <=? 0) || (annualInterestRate <=? 0) || (loanTermYears <=? 0)
  then Some []
  else
    let monthlyRate := annualInterestRate / 12 in
    match calculateMonthlyPIRepayment loanAmount annualInterestRate loanTermYears with
    | Some monthlyPayment =>
        let milestoneYears :=
          filter (fun y => y <=? loanTermYears) requestedMilestoneYears in
        scheduleLoop scheduleFuel monthlyRate monthlyPayment loanTermYears milestoneYears 1
          {| balance := loanAmount;
             totalPrincipalPaid := 0;
             totalInterestPaid := 0;
             currentMilestoneIndex := 0;
             milestones := [] |}
    | None => None
    end.

End Float64.

(** Loans of ordinary size: an amount from one dollar to a million million,
    a rate from 0.01% (the step of the rate field of the form) to the 25%
    of the validation limits, and a term within the validation limits.  On
    these the margins of the inequalities stated for them are many orders
    of magnitude above the rounding of double arithmetic; outside them (a
    rate that vanishes next to 1, amounts at the ends of the double range)
    cancellation, overflow or a division by zero decide what is computed. *)
Definition ordinaryLoan (loanAmount annualInterestRate loanTermYears : R) : Prop :=
  1 <= loanAmount <= 1000000000000 /\
  1 / 10000 <= annualInterestRate <= 25 / 100 /\
  1 <= loanTermYears <= 40.

(** * Properties *)

(** ** Comparison tests *)

Lemma num_le_true (x y : R) : num_le x y = true <-> x <= y.
Proof. unfold num_le; destruct (Rle_dec x y); split; intros; try easy. Qed.

Lemma num_le_false (x y : R) : num_le x y = false <-> y < x.
Proof.
  unfold num_le; destruct (Rle_dec x y); split; intros; try easy; lra.
Qed.

Lemma num_lt_true (x y : R) : num_lt x y = true <-> x < y.
Proof. unfold num_lt; destruct (Rlt_dec x y); split; intros; try easy. Qed.

Lemma num_lt_false (x y : R) : num_lt x y = false <-> y <= x.
Proof.
  unfold num_lt; destruct (Rlt_dec x y); split; intros; try easy; lra.
Qed.

Lemma num_eq_true (x y : R) : num_eq x y = true <-> x = y.
Proof. unfold num_eq; destruct (Req_dec_T x y); split; intros; try easy. Qed.

Lemma num_eq_false (x y : R) : num_eq x y = false <-> x <> y.
Proof. unfold num_eq; destruct (Req_dec_T x y); split; intros; try easy. Qed.

Lemma Math_max_floor_neg (x : R) : x <= 0 -> Math_max 0 x = 0.
Proof. intros H; unfold Math_max; apply Rmax_left; exact H. Qed.

Lemma Math_max_floor_pos (x : R) : 0 <= x -> Math_max 0 x = x.
Proof. intros H; unfold Math_max; apply Rmax_right; exact H. Qed.

Lemma Math_max_floor_mono (x y : R) : x <= y -> Math_max 0 x <= Math_max 0 y.
Proof. intros H; unfold Math_max; apply Rle_max_compat_l; exact H. Qed.

Lemma Math_max_floor_nonneg (x : R) : 0 <= Math_max 0 x.
Proof. unfold Math_max; apply Rmax_l. Qed.

(** ** Tax calculator *)

Lemma totalTax_scenario (taxableIncome marginalTaxRate medicareLevyRate : R) :
  TaxScenarioResults.totalTax
    (calculateTaxScenario taxableIncome marginalTaxRate medicareLevyRate)
  = Math_max 0 taxableIncome * (marginalTaxRate + medicareLevyRate).
Proof.
  unfold calculateTaxScenario, calculateTotalTax, calculateIncomeTax,
    calculateMedicareLevy; simpl; ring.
Qed.

Lemma totalTax_scenario_mono (x y marginalTaxRate medicareLevyRate : R) :
  0 <= marginalTaxRate -> 0 <= medicareLevyRate -> x <= y ->
  TaxScenarioResults.totalTax (calculateTaxScenario x marginalTaxRate medicareLevyRate)
  <= TaxScenarioResults.totalTax (calculateTaxScenario y marginalTaxRate medicareLevyRate).
Proof.
  intros Hm Hl Hxy; rewrite !totalTax_scenario.
  apply Rmult_le_compat_r; [lra | apply Math_max_floor_mono; exact Hxy].
Qed.

(** C1. [calculateTaxImpactResults] evaluates the without-property scenario
    at [baseTaxableIncome], the with-property scenario at the unfloored sum
    [baseTaxableIncome + netRentalResult], sets [taxBenefit] to the
    difference of the two total taxes (without minus with) and
    [afterTaxCashflow] to [netCashflowPreTax + taxBenefit]; on the worked
    example of the specification it yields 39000, 79200, 30888, 8112 and
    -188, and the last figure is not the one obtained from the taxable
    rental result. *)
Theorem calculateTaxImpactResults_two_scenarios :
  (forall baseTaxableIncome netRentalResult netCashflowPreTax
          marginalTaxRate medicareLevyRate : R,
     let r := calculateTaxImpactResults baseTaxableIncome netRentalResult
                netCashflowPreTax marginalTaxRate medicareLevyRate in
     TaxImpactResults.withoutProperty r
       = calculateTaxScenario baseTaxableIncome marginalTaxRate medicareLevyRate /\
     TaxImpactResults.withProperty r
       = calculateTaxScenario (baseTaxableIncome + netRentalResult)
           marginalTaxRate medicareLevyRate /\
     TaxScenarioResults.taxableIncome (TaxImpactResults.withoutProperty r)
       = baseTaxableIncome /\
     TaxScenarioResults.taxableIncome (TaxImpactResults.withProperty r)
       = baseTaxableIncome + netRentalResult /\
     TaxImpactResults.taxBenefit r
       = TaxScenarioResults.totalTax (TaxImpactResults.withoutProperty r)
         - TaxScenarioResults.totalTax (TaxImpactResults.withProperty r) /\
     TaxImpactResults.afterTaxCashflow r
       = netCashflowPreTax + TaxImpactResults.taxBenefit r) /\
  (let r := calculateTaxImpactResults 100000 (-20800) (-8300) (37 / 100) (2 / 100) in
     TaxScenarioResults.totalTax (TaxImpactResults.withoutProperty r) = 39000 /\
     TaxScenarioResults.taxableIncome (TaxImpactResults.withProperty r) = 79200 /\
     TaxScenarioResults.totalTax (TaxImpactResults.withProperty r) = 30888 /\
     TaxImpactResults.taxBenefit r = 8112 /\
     TaxImpactResults.afterTaxCashflow r = -188 /\
     TaxImpactResults.afterTaxCashflow r <> -20800 + TaxImpactResults.taxBenefit r).
Proof.
  split.
  - intros b n c m l r; subst r; unfold calculateTaxImpactResults; simpl.
    repeat split; reflexivity.
  - cbv zeta; unfold calculateTaxImpactResults, calculateTaxBenefit.
    cbn [TaxImpactResults.withoutProperty TaxImpactResults.withProperty
         TaxImpactResults.taxBenefit TaxImpactResults.afterTaxCashflow].
    rewrite !totalTax_scenario.
    rewrite (Math_max_floor_pos 100000) by lra.
    rewrite (Math_max_floor_pos (100000 + -20800)) by lra.
    simpl; repeat split; lra.
Qed.

(** C2. [calculateIncomeTax taxableIncome rate] is [max(0, taxableIncome) *
    rate] and [calculateMedicareLevy] is the same formula with its own rate:
    a non-negative income is taxed at the rate, a negative income gives zero
    income tax and zero levy, and [calculateIncomeTax 100000 0.37 = 37000]. *)
Theorem calculateIncomeTax_floors_at_zero :
  (forall taxableIncome rate : R,
     calculateIncomeTax taxableIncome rate = Rmax 0 taxableIncome * rate /\
     calculateMedicareLevy taxableIncome rate = Rmax 0 taxableIncome * rate) /\
  (forall taxableIncome rate : R, 0 <= taxableIncome ->
     calculateIncomeTax taxableIncome rate = taxableIncome * rate /\
     calculateMedicareLevy taxableIncome rate = taxableIncome * rate) /\
  (forall taxableIncome rate : R, taxableIncome < 0 ->
     calculateIncomeTax taxableIncome rate = 0 /\
     calculateMedicareLevy taxableIncome rate = 0) /\
  calculateIncomeTax 100000 (37 / 100) = 37000.
Proof.
  unfold calculateIncomeTax, calculateMedicareLevy.
  split; [| split; [| split]].
  - intros x rate; split; reflexivity.
  - intros x rate Hx; rewrite Math_max_floor_pos by exact Hx; split; reflexivity.
  - intros x rate Hx; rewrite Math_max_floor_neg by lra; split; ring.
  - cbv zeta; rewrite Math_max_floor_pos by lra; lra.
Qed.

Lemma calculateIncomeTax_floors_at_zero_witness :
  calculateIncomeTax (-5000) (37 / 100) = 0 /\
  calculateMedicareLevy (-5000) (2 / 100) = 0 /\
  calculateIncomeTax 50000 (30 / 100) = 50000 * (30 / 100).
Proof.
  split; [| split].
  - apply (proj1 (proj2 (proj2 calculateIncomeTax_floors_at_zero))); lra.
  - apply (proj1 (proj2 (proj2 calculateIncomeTax_floors_at_zero))); lra.
  - apply (proj1 (proj2 calculateIncomeTax_floors_at_zero)); lra.
Defined.

(** C6. [calculateRentalPLResults] returns [netRentalResult =
    netCashflowPreTax - totalDepreciation], flags [isNegativelyGeared]
    exactly when that result is strictly negative (so a result of zero is
    not negatively geared), and copies [netCashflowPreTax] and
    [totalDepreciation] from its inputs. *)
Theorem calculateRentalPLResults_gearing
    (cashflow : CashflowResults.t) (depreciation : DepreciationResults.t) :
  let r := calculateRentalPLResults cashflow depreciation in
  RentalPLResults.netRentalResult r
    = CashflowResults.netCashflowPreTax cashflow
      - DepreciationResults.totalDepreciation depreciation /\
  RentalPLResults.isNegativelyGeared r = num_lt (RentalPLResults.netRentalResult r) 0 /\
  (RentalPLResults.isNegativelyGeared r = true <-> RentalPLResults.netRentalResult r < 0) /\
  (RentalPLResults.netRentalResult r = 0 -> RentalPLResults.isNegativelyGeared r = false) /\
  RentalPLResults.netCashflowPreTax r = CashflowResults.netCashflowPreTax cashflow /\
  RentalPLResults.totalDepreciation r = DepreciationResults.totalDepreciation depreciation.
Proof.
  cbv zeta; unfold calculateRentalPLResults, calculateNetRentalResult; simpl.
  repeat split; try reflexivity.
  - apply num_lt_true.
  - apply num_lt_true.
  - intros H; apply num_lt_false; lra.
Qed.

Lemma calculateRentalPLResults_gearing_witness :
  RentalPLResults.isNegativelyGeared
    (calculateRentalPLResults
       (CashflowResults.mk 27500 7000 8000 12500)
       (DepreciationResults.mk 7500 5000 12500)) = false.
Proof.
  apply (proj1 (proj2 (proj2 (proj2
    (calculateRentalPLResults_gearing
       (CashflowResults.mk 27500 7000 8000 12500)
       (DepreciationResults.mk 7500 5000 12500)))))).
  unfold calculateRentalPLResults, calculateNetRentalResult; simpl; lra.
Defined.

(** C9. Under non-negative rates the tax benefit has the sign opposite to
    the net rental result: a rental loss (or zero) never gives a negative
    benefit, a rental profit (or zero) never gives a positive one. *)
Theorem taxBenefit_sign_opposes_rental_result
    (baseTaxableIncome netRentalResult netCashflowPreTax
     marginalTaxRate medicareLevyRate : R) :
  0 <= marginalTaxRate -> 0 <= medicareLevyRate ->
  (netRentalResult <= 0 ->
     0 <= TaxImpactResults.taxBenefit
            (calculateTaxImpactResults baseTaxableIncome netRentalResult
               netCashflowPreTax marginalTaxRate medicareLevyRate)) /\
  (0 <= netRentalResult ->
     TaxImpactResults.taxBenefit
       (calculateTaxImpactResults baseTaxableIncome netRentalResult
          netCashflowPreTax marginalTaxRate medicareLevyRate) <= 0).
Proof.
  intros Hm Hl; unfold calculateTaxImpactResults, calculateTaxBenefit.
  cbn [TaxImpactResults.taxBenefit].
  split; intros Hn.
  - pose proof (totalTax_scenario_mono (baseTaxableIncome + netRentalResult)
                  baseTaxableIncome marginalTaxRate medicareLevyRate Hm Hl).
    lra.
  - pose proof (totalTax_scenario_mono baseTaxableIncome
                  (baseTaxableIncome + netRentalResult)
                  marginalTaxRate medicareLevyRate Hm Hl).
    lra.
Qed.

Lemma taxBenefit_sign_opposes_rental_result_witness :
  0 <= TaxImpactResults.taxBenefit
         (calculateTaxImpactResults 100000 (-20800) (-8300) (37 / 100) (2 / 100)) /\
  TaxImpactResults.taxBenefit
    (calculateTaxImpactResults 100000 5000 9000 (37 / 100) (2 / 100)) <= 0.
Proof.
  split.
  - apply (taxBenefit_sign_opposes_rental_result
             100000 (-20800) (-8300) (37 / 100) (2 / 100)); lra.
  - apply (taxBenefit_sign_opposes_rental_result
             100000 5000 9000 (37 / 100) (2 / 100)); lra.
Defined.

(** ** Rental cashflow and depreciation calculators *)

(** C5. [calculateGrossRent] is [(52 - vacancyWeeks) * weeklyRent *
    ownershipPct] with no clamp on the week count, so more than 52 vacancy
    weeks with positive rent and ownership give a negative gross rent;
    [calculateCashflowResults] builds its fields from the component
    calculators and returns [netCashflowPreTax = grossRentalIncome -
    totalOperatingExpenses - interestExpense] with no floor, negative as
    soon as expenses and interest exceed the rent. *)
Theorem calculateGrossRent_and_cashflow_unclamped :
  (forall weeklyRent vacancyWeeks ownershipPct : R,
     calculateGrossRent weeklyRent vacancyWeeks ownershipPct
       = (52 - vacancyWeeks) * weeklyRent * ownershipPct) /\
  (forall weeklyRent vacancyWeeks ownershipPct : R,
     52 < vacancyWeeks -> 0 < weeklyRent -> 0 < ownershipPct ->
     calculateGrossRent weeklyRent vacancyWeeks ownershipPct < 0) /\
  (forall (rentalIncome : RentalIncomeInputs.t)
          (operatingExpenses : OperatingExpensesInputs.t)
          (loanAmount interestRate ownershipPct : R),
     let r := calculateCashflowResults rentalIncome operatingExpenses
                loanAmount interestRate ownershipPct in
     CashflowResults.grossRentalIncome r
       = calculateGrossRent (RentalIncomeInputs.weeklyRent rentalIncome)
           (RentalIncomeInputs.vacancyWeeksPerYear rentalIncome) ownershipPct /\
     CashflowResults.totalOperatingExpenses r
       = calculateTotalOperatingExpenses operatingExpenses ownershipPct /\
     CashflowResults.interestExpense r
       = calculateInterestExpense loanAmount interestRate ownershipPct /\
     CashflowResults.netCashflowPreTax r
       = CashflowResults.grossRentalIncome r
         - CashflowResults.totalOperatingExpenses r
         - CashflowResults.interestExpense r /\
     (CashflowResults.grossRentalIncome r
        < CashflowResults.totalOperatingExpenses r + CashflowResults.interestExpense r ->
      CashflowResults.netCashflowPreTax r < 0)).
Proof.
  split; [| split].
  - intros w v o; unfold calculateGrossRent, WEEKS_PER_YEAR; reflexivity.
  - intros w v o Hv Hw Ho; unfold calculateGrossRent, WEEKS_PER_YEAR; cbv zeta.
    assert (Hneg : (52 - v) * w < 0) by nra.
    nra.
  - intros ri oe la ir o r; subst r.
    unfold calculateCashflowResults, calculateNetCashflowPreTax; simpl.
    repeat split; try reflexivity.
    intros H; lra.
Qed.

Lemma calculateGrossRent_and_cashflow_unclamped_witness :
  calculateGrossRent 550 53 1 < 0 /\
  CashflowResults.netCashflowPreTax
    (calculateCashflowResults
       (RentalIncomeInputs.mk 550 2)
       (OperatingExpensesInputs.mk 1500 2000 1000 1500 1000 0 0 EmptyString)
       480000 (6 / 100) 1) < 0.
Proof.
  split.
  - apply (proj1 (proj2 calculateGrossRent_and_cashflow_unclamped)); lra.
  - apply (proj2 (proj2 calculateGrossRent_and_cashflow_unclamped)).
    unfold calculateCashflowResults, calculateGrossRent, calculateInterestExpense,
      calculateTotalOperatingExpenses, WEEKS_PER_YEAR; simpl; lra.
Defined.



(** ** Loan calculator *)

Lemma Math_pow_nat (x : R) (n : nat) : 0 < x -> Math_pow x (INR n) = x ^ n.
Proof. intros Hx; unfold Math_pow; apply Rpower_pow; exact Hx. Qed.

Lemma Math_pow_gt_1 (x y : R) : 1 < x -> 0 < y -> 1 < Math_pow x y.
Proof.
  intros Hx Hy; unfold Math_pow.
  rewrite <- (Rpower_O x) by lra.
  apply Rpower_lt; assumption.
Qed.

Lemma calculateMonthlyPIRepayment_amortizing (loanAmount annualInterestRate loanTermYears : R) :
  0 < loanAmount -> 0 < annualInterestRate -> 0 < loanTermYears ->
  calculateMonthlyPIRepayment loanAmount annualInterestRate loanTermYears
  = loanAmount
    * (annualInterestRate / 12
       * Math_pow (1 + annualInterestRate / 12) (loanTermYears * 12))
    / (Math_pow (1 + annualInterestRate / 12) (loanTermYears * 12) - 1).
Proof.
  intros HL Ha HT; unfold calculateMonthlyPIRepayment.
  rewrite (proj2 (num_le_false loanAmount 0)) by lra.
  rewrite (proj2 (num_le_false loanTermYears 0)) by lra.
  rewrite (proj2 (num_le_false annualInterestRate 0)) by lra.
  reflexivity.
Qed.



(** C10. [calculateAmortizationMilestones] returns the empty list when the
    loan amount, the rate or the term is not positive, whatever the bound on
    the loop; at a zero rate on a positive loan and term it yields no
    schedule although [calculateMonthlyPIRepayment] returns the positive
    straight-line repayment for the same input. *)
Theorem calculateAmortizationMilestones_degenerate :
  (forall loanAmount annualInterestRate loanTermYears : R,
     loanAmount <= 0 \/ annualInterestRate <= 0 \/ loanTermYears <= 0 ->
     calculateAmortizationMilestones loanAmount annualInterestRate loanTermYears = [] /\
     forall fuel : nat,
       calculateAmortizationMilestones_fuel fuel
         loanAmount annualInterestRate loanTermYears = Some []) /\
  (forall loanAmount loanTermYears : R,
     0 < loanAmount -> 0 < loanTermYears ->
     calculateAmortizationMilestones loanAmount 0 loanTermYears = [] /\
     calculateMonthlyPIRepayment loanAmount 0 loanTermYears
       = loanAmount / (loanTermYears * 12) /\
     0 < calculateMonthlyPIRepayment loanAmount 0 loanTermYears).
Proof.
  assert (Hdeg : forall L a T fuel, L <= 0 \/ a <= 0 \/ T <= 0 ->
            calculateAmortizationMilestones_fuel fuel L a T = Some []).
  { intros L a T fuel H; unfold calculateAmortizationMilestones_fuel.
    destruct H as [H | [H | H]].
    - rewrite (proj2 (num_le_true L 0)) by exact H; reflexivity.
    - rewrite (proj2 (num_le_true a 0)) by exact H.
      rewrite orb_true_r; reflexivity.
    - rewrite (proj2 (num_le_true T 0)) by exact H.
      rewrite orb_true_r; reflexivity. }
  split.
  - intros L a T H; split.
    + unfold calculateAmortizationMilestones; rewrite Hdeg by exact H; reflexivity.
    + intros fuel; apply Hdeg; exact H.
  - intros L T HL HT.
    assert (Hm : calculateMonthlyPIRepayment L 0 T = L / (T * 12)).
    { unfold calculateMonthlyPIRepayment.
      rewrite (proj2 (num_le_false L 0)) by lra.
      rewrite (proj2 (num_le_false T 0)) by lra.
      rewrite (proj2 (num_le_true 0 0)) by lra; reflexivity. }
    split; [| split].
    + unfold calculateAmortizationMilestones.
      rewrite Hdeg by (right; left; lra); reflexivity.
    + exact Hm.
    + rewrite Hm; apply Rdiv_lt_0_compat; lra.
Qed.

Lemma calculateAmortizationMilestones_degenerate_witness :
  calculateAmortizationMilestones 480000 (6 / 100) 0 = [] /\
  calculateAmortizationMilestones 480000 0 30 = [] /\
  0 < calculateMonthlyPIRepayment 480000 0 30.
Proof.
  split; [| split].
  - apply (proj1 calculateAmortizationMilestones_degenerate 480000 (6 / 100) 0).
    right; right; lra.
  - apply (proj2 calculateAmortizationMilestones_degenerate 480000 30); lra.
  - apply (proj2 calculateAmortizationMilestones_degenerate 480000 30); lra.
Defined.

(** The tangent bound of the logarithm and Bernoulli's inequality for the
    real power, the reason interest-only costs at least as much interest. *)
Lemma ln_tangent (z : R) : 0 < z -> ln z <= z - 1.
Proof.
  intros Hz; pose proof (exp_ineq1_le (ln z)) as H.
  rewrite exp_ln in H by exact Hz; lra.
Qed.


Lemma extraInterestIO_closed_form (loanAmount annualInterestRate loanTermYears : R) :
  0 < loanAmount -> 0 < annualInterestRate -> 0 < loanTermYears ->
  let factor := Math_pow (1 + annualInterestRate / 12) (loanTermYears * 12) in
  LoanComparisonResults.extraInterestIO
    (calculateLoanComparison loanAmount annualInterestRate loanTermYears)
  = loanAmount * (factor - 1 - loanTermYears * 12 * (annualInterestRate / 12))
    / (factor - 1).
Proof.
  intros HL Ha HT factor.
  unfold calculateLoanComparison, calculateTotalInterestIO, calculateTotalInterestPI.
  cbn [LoanComparisonResults.extraInterestIO].
  rewrite calculateMonthlyPIRepayment_amortizing by assumption.
  fold factor.
  assert (Hf : 1 < factor)
    by (unfold factor; apply Math_pow_gt_1; lra).
  field; lra.
Qed.



(** The bound of one monthly payment is sharp: below it the real power
    falls under Bernoulli's line and the difference is strictly negative
    for every positive loan amount and rate. *)
Lemma ln_tangent_strict (z : R) : 0 < z -> z <> 1 -> ln z < z - 1.
Proof.
  intros Hz Hz1.
  assert (Hln : ln z <> 0) by (apply ln_neq_0; assumption).
  pose proof (exp_ineq1 (ln z) Hln) as H.
  rewrite exp_ln in H by exact Hz; lra.
Qed.

Lemma Math_pow_under_bernoulli (r n : R) :
  0 < r -> 0 < n < 1 -> Math_pow (1 + r) n < 1 + n * r.
Proof.
  intros Hr [Hn0 Hn1]; unfold Math_pow, Rpower.
  set (c := 1 + r); set (y := 1 + n * r).
  assert (Hc : 0 < c) by (unfold c; lra).
  assert (Hy : 1 < y) by (unfold y; nra).
  assert (Hiy : 0 < / y) by (apply Rinv_0_lt_compat; lra).
  assert (Hiy1 : / y <> 1).
  { intros Habs; assert (Hyy : y * / y = 1) by (apply Rinv_r; lra).
    rewrite Habs in Hyy; lra. }
  assert (H1 : ln (c * / y) <= c * / y - 1)
    by (apply ln_tangent; apply Rmult_lt_0_compat; assumption).
  rewrite ln_mult in H1 by assumption.
  assert (H2 : ln (/ y) < / y - 1) by (apply ln_tangent_strict; assumption).
  rewrite ln_Rinv in H1, H2 by lra.
  assert (S1 : n * (ln c + - ln y) <= n * (c * / y - 1))
    by (apply Rmult_le_compat_l; lra).
  assert (S2 : (1 - n) * (- ln y) < (1 - n) * (/ y - 1))
    by (apply Rmult_lt_compat_l; lra).
  assert (E : n * (c * / y - 1) + (1 - n) * (/ y - 1) = 0)
    by (unfold c, y; field; nra).
  assert (Hlt : n * ln c < ln y) by lra.
  apply Rlt_le_trans with (exp (ln y));
    [apply exp_increasing; exact Hlt | rewrite exp_ln by lra; lra].
Qed.

Lemma extraInterestIO_negative_under_one_month
    (loanAmount annualInterestRate loanTermYears : R) :
  0 < loanAmount -> 0 < annualInterestRate ->
  0 < loanTermYears -> loanTermYears * 12 < 1 ->
  LoanComparisonResults.extraInterestIO
    (calculateLoanComparison loanAmount annualInterestRate loanTermYears) < 0.
Proof.
  intros HL Ha HT Hshort.
  rewrite extraInterestIO_closed_form by assumption.
  cbv zeta.
  set (factor := Math_pow (1 + annualInterestRate / 12) (loanTermYears * 12)).
  assert (Hb : factor < 1 + loanTermYears * 12 * (annualInterestRate / 12))
    by (unfold factor; apply Math_pow_under_bernoulli; lra).
  assert (Hf : 1 < factor) by (unfold factor; apply Math_pow_gt_1; lra).
  assert (Hi : 0 < / (factor - 1)) by (apply Rinv_0_lt_compat; lra).
  assert (Hnum : loanAmount * (factor - 1 - loanTermYears * 12 * (annualInterestRate / 12)) < 0)
    by nra.
  unfold Rdiv; nra.
Qed.



(** ** The amortization schedule *)

Lemma requestedMilestoneYears_integers :
  requestedMilestoneYears = map IZR requestedYears.
Proof. reflexivity. Qed.

Lemma filter_map_commute {A B : Type} (g : A -> B) (f : B -> bool) (l : list A) :
  filter f (map g l) = map g (filter (fun x => f (g x)) l).
Proof.
  induction l as [| x l IH]; simpl; [reflexivity |].
  destruct (f (g x)); simpl; rewrite IH; reflexivity.
Qed.

Lemma StronglySorted_filter {A : Type} (R1 : A -> A -> Prop) (f : A -> bool) (l : list A) :
  StronglySorted R1 l -> StronglySorted R1 (filter f l).
Proof.
  induction 1 as [| x l Hs IH Hall]; simpl; [constructor |].
  destruct (f x); [| exact IH].
  constructor; [exact IH |].
  rewrite Forall_forall in *; intros y Hy.
  apply Hall; apply filter_In in Hy; tauto.
Qed.

Lemma StronglySorted_map_mono {A B : Type}
    (R1 : A -> A -> Prop) (R2 : B -> B -> Prop) (g : A -> B) (P : A -> Prop) (l : list A) :
  (forall x y, P x -> P y -> R1 x y -> R2 (g x) (g y)) ->
  Forall P l -> StronglySorted R1 l -> StronglySorted R2 (map g l).
Proof.
  intros Hmono HP Hs; induction Hs as [| x l Hs IH Hall]; simpl; [constructor |].
  inversion HP as [| ? ? Px Pl]; subst.
  constructor; [apply IH; exact Pl |].
  rewrite Forall_forall in *; intros z Hz.
  apply in_map_iff in Hz; destruct Hz as [y [<- Hy]].
  apply Hmono; auto.
Qed.

Lemma skipn_cons_inv {A : Type} (l : list A) (i : nat) (x : A) (rest : list A) :
  skipn i l = x :: rest -> nth_error l i = Some x /\ skipn (S i) l = rest.
Proof.
  revert i; induction l as [| a l IH]; intros i H.
  - destruct i; discriminate H.
  - destruct i as [| i].
    + simpl in H; inversion H; subst; split; reflexivity.
    + simpl in H; apply IH in H; exact H.
Qed.

Lemma requestedYears_sorted : StronglySorted Z.lt requestedYears.
Proof.
  unfold requestedYears.
  repeat (constructor; [| repeat (constructor; [lia |]); constructor]).
  constructor.
Qed.

Lemma requestedYears_range (k : Z) : In k requestedYears -> (1 <= k <= 30)%Z.
Proof. unfold requestedYears; simpl; intros H; intuition lia. Qed.

Section Schedule.

Variables monthlyRate monthlyPayment loanTermYears loanAmount : R.

Lemma scheduleMonth_totals (ys : list R) (month : R) (s : ScheduleState) :
  runningTotals (scheduleMonth monthlyRate monthlyPayment ys month s)
  = walkMonth monthlyRate monthlyPayment (runningTotals s).
Proof.
  unfold scheduleMonth, runningTotals, walkMonth.
  destruct (nth_error ys (currentMilestoneIndex s)) as [y |];
    [destruct (num_eq month (y * 12)) |]; reflexivity.
Qed.

Lemma scheduleMonth_hit (ys : list R) (month y : R) (s : ScheduleState) :
  nth_error ys (currentMilestoneIndex s) = Some y -> month = y * 12 ->
  currentMilestoneIndex (scheduleMonth monthlyRate monthlyPayment ys month s)
    = S (currentMilestoneIndex s) /\
  milestones (scheduleMonth monthlyRate monthlyPayment ys month s)
    = milestones s
      ++ [snapshot y (walkMonth monthlyRate monthlyPayment (runningTotals s))].
Proof.
  intros Hy Hm; unfold scheduleMonth; rewrite Hy.
  rewrite (proj2 (num_eq_true month (y * 12)) Hm).
  split; reflexivity.
Qed.

Lemma scheduleMonth_miss (ys : list R) (month y : R) (s : ScheduleState) :
  nth_error ys (currentMilestoneIndex s) = Some y -> month <> y * 12 ->
  currentMilestoneIndex (scheduleMonth monthlyRate monthlyPayment ys month s)
    = currentMilestoneIndex s /\
  milestones (scheduleMonth monthlyRate monthlyPayment ys month s) = milestones s.
Proof.
  intros Hy Hm; unfold scheduleMonth; rewrite Hy.
  rewrite (proj2 (num_eq_false month (y * 12)) Hm).
  split; reflexivity.
Qed.

(** The loop invariant: entering the loop at month [m + 1] with the
    running totals of the walk after [m] months, the loop appends the
    snapshot at month [k * 12] for every milestone year [k] still ahead,
    provided the years ahead are increasing, within the term, and the
    bound on the passes reaches beyond the last of them. *)
Lemma scheduleLoop_collects (ks : list Z) :
  forall (fuel m : nat) (month : R) (s : ScheduleState),
    month = IZR (Z.of_nat m + 1) ->
    runningTotals s = walk monthlyRate monthlyPayment loanAmount m ->
    StronglySorted Z.lt (skipn (currentMilestoneIndex s) ks) ->
    (forall k, In k (skipn (currentMilestoneIndex s) ks) ->
               (Z.of_nat m < k * 12)%Z /\ IZR k <= loanTermYears) ->
    (1 <= fuel)%nat ->
    (forall k, In k (skipn (currentMilestoneIndex s) ks) ->
               (k * 12 - Z.of_nat m < Z.of_nat fuel)%Z) ->
    scheduleLoop fuel monthlyRate monthlyPayment loanTermYears (map IZR ks) month s
    = Some (milestones s
            ++ map (fun k => snapshot (IZR k)
                               (walk monthlyRate monthlyPayment loanAmount
                                  (Z.to_nat (k * 12))))
                   (skipn (currentMilestoneIndex s) ks)).
Proof.
  induction fuel as [| fuel IH]; intros m month s Hmonth Htot Hsorted Hahead Hfuel Hreach;
    [lia |].
  cbn [scheduleLoop].
  destruct (skipn (currentMilestoneIndex s) ks) as [| k rest] eqn:Hrest.
  - apply skipn_all_iff in Hrest.
    rewrite length_map.
    rewrite (proj2 (Nat.ltb_ge _ _) Hrest), andb_false_r.
    cbn [map]; rewrite app_nil_r; reflexivity.
  - destruct (skipn_cons_inv _ _ _ _ Hrest) as [Hnth Hnext].
    assert (Hlen : (currentMilestoneIndex s < List.length ks)%nat)
      by (apply nth_error_Some; rewrite Hnth; discriminate).
    destruct (Hahead k (or_introl eq_refl)) as [Hmk HkT].
    assert (Hcond : month <= loanTermYears * 12).
    { rewrite Hmonth.
      apply Rle_trans with (IZR (k * 12)); [apply IZR_le; lia |].
      rewrite mult_IZR; lra. }
    rewrite length_map, (proj2 (num_le_true _ _) Hcond),
      (proj2 (Nat.ltb_lt _ _) Hlen).
    cbn [andb].
    assert (Hys : nth_error (map IZR ks) (currentMilestoneIndex s) = Some (IZR k))
      by (apply map_nth_error; exact Hnth).
    assert (Htot' :
      runningTotals (scheduleMonth monthlyRate monthlyPayment (map IZR ks) month s)
      = walk monthlyRate monthlyPayment loanAmount (S m))
      by (rewrite scheduleMonth_totals, Htot; reflexivity).
    assert (Hmonth' : month + 1 = IZR (Z.of_nat (S m) + 1))
      by (rewrite Hmonth, <- plus_IZR; f_equal; lia).
    apply StronglySorted_inv in Hsorted; destruct Hsorted as [Hsrest Hklt].
    rewrite Forall_forall in Hklt.
    destruct (Z.eq_dec (Z.of_nat m + 1) (k * 12)) as [Heq | Hneq].
    + assert (Hm : month = IZR k * 12)
        by (rewrite Hmonth, Heq, mult_IZR; reflexivity).
      destruct (scheduleMonth_hit _ _ _ _ Hys Hm) as [Hidx Hms].
      pose proof (IH (S m) (month + 1) _ Hmonth' Htot') as IHs.
      rewrite Hidx, Hnext in IHs; rewrite IHs.
      * rewrite Hms, <- app_assoc; cbn [app map].
        replace (Z.to_nat (k * 12)) with (S m) by lia.
        rewrite Htot; reflexivity.
      * exact Hsrest.
      * intros k' Hk'; split;
          [specialize (Hklt k' Hk'); lia | apply Hahead; right; exact Hk'].
      * specialize (Hreach k (or_introl eq_refl)); lia.
      * intros k' Hk'; specialize (Hreach k' (or_intror Hk')); lia.
    + assert (Hm : month <> IZR k * 12).
      { rewrite Hmonth, <- mult_IZR; intros Habs; apply eq_IZR in Habs; lia. }
      destruct (scheduleMonth_miss _ _ _ _ Hys Hm) as [Hidx Hms].
      pose proof (IH (S m) (month + 1) _ Hmonth' Htot') as IHs.
      rewrite Hidx, Hrest in IHs; rewrite IHs.
      * rewrite Hms; reflexivity.
      * constructor; [exact Hsrest | rewrite Forall_forall; exact Hklt].
      * intros k' Hk'; split; [| apply Hahead; exact Hk'].
        destruct Hk' as [<- | Hk']; [lia | specialize (Hklt k' Hk'); lia].
      * specialize (Hreach k (or_introl eq_refl)); lia.
      * intros k' Hk'; specialize (Hreach k' Hk'); lia.
Qed.

End Schedule.

(** The loop is left within 360 passes: with the bound [scheduleFuel] or
    more, a non-degenerate call returns the snapshot at month [k * 12] for
    every requested year [k] within the term. *)
Lemma calculateAmortizationMilestones_fuel_walk
    (loanAmount annualInterestRate loanTermYears : R) (fuel : nat) :
  0 < loanAmount -> 0 < annualInterestRate -> 0 < loanTermYears ->
  (scheduleFuel <= fuel)%nat ->
  calculateAmortizationMilestones_fuel fuel loanAmount annualInterestRate loanTermYears
  = Some (map (milestoneAt loanAmount annualInterestRate loanTermYears)
              (filter (fun k => num_le (IZR k) loanTermYears) requestedYears)).
Proof.
  intros HL Ha HT Hfuel; unfold calculateAmortizationMilestones_fuel.
  rewrite (proj2 (num_le_false loanAmount 0)) by lra.
  rewrite (proj2 (num_le_false annualInterestRate 0)) by lra.
  rewrite (proj2 (num_le_false loanTermYears 0)) by lra.
  cbn [orb].
  rewrite requestedMilestoneYears_integers, filter_map_commute.
  set (ks := filter (fun k => num_le (IZR k) loanTermYears) requestedYears).
  assert (Hks : forall k, In k ks -> (1 <= k <= 30)%Z /\ IZR k <= loanTermYears).
  { intros k Hk; apply filter_In in Hk; destruct Hk as [Hin Hle].
    split; [apply requestedYears_range; exact Hin | apply num_le_true; exact Hle]. }
  rewrite (scheduleLoop_collects _ _ _ loanAmount ks fuel 0); cbn [currentMilestoneIndex skipn milestones].
  - reflexivity.
  - simpl; reflexivity.
  - reflexivity.
  - apply StronglySorted_filter; exact requestedYears_sorted.
  - intros k Hk; destruct (Hks k Hk) as [Hr Hle]; split; [lia | exact Hle].
  - unfold scheduleFuel in Hfuel; lia.
  - intros k Hk; destruct (Hks k Hk) as [Hr _].
    unfold scheduleFuel in Hfuel; lia.
Qed.

Lemma schedule_fuel_enough
    (loanAmount annualInterestRate loanTermYears : R) (fuel : nat) :
  (scheduleFuel <= fuel)%nat ->
  calculateAmortizationMilestones_fuel fuel loanAmount annualInterestRate loanTermYears
  = Some (calculateAmortizationMilestones loanAmount annualInterestRate loanTermYears).
Proof.
  intros Hfuel; unfold calculateAmortizationMilestones.
  destruct (Rle_lt_dec loanAmount 0) as [HL | HL];
    [| destruct (Rle_lt_dec annualInterestRate 0) as [Ha | Ha];
       [| destruct (Rle_lt_dec loanTermYears 0) as [HT | HT]]].
  - unfold calculateAmortizationMilestones_fuel.
    rewrite (proj2 (num_le_true loanAmount 0)) by exact HL; reflexivity.
  - unfold calculateAmortizationMilestones_fuel.
    rewrite (proj2 (num_le_true annualInterestRate 0)) by exact Ha.
    rewrite orb_true_r; reflexivity.
  - unfold calculateAmortizationMilestones_fuel.
    rewrite (proj2 (num_le_true loanTermYears 0)) by exact HT.
    rewrite orb_true_r; reflexivity.
  - rewrite (calculateAmortizationMilestones_fuel_walk _ _ _ fuel) by assumption.
    rewrite (calculateAmortizationMilestones_fuel_walk _ _ _ scheduleFuel)
      by (assumption || apply Nat.le_refl).
    reflexivity.
Qed.

Lemma calculateAmortizationMilestones_walk
    (loanAmount annualInterestRate loanTermYears : R) :
  0 < loanAmount -> 0 < annualInterestRate -> 0 < loanTermYears ->
  calculateAmortizationMilestones loanAmount annualInterestRate loanTermYears
  = map (milestoneAt loanAmount annualInterestRate loanTermYears)
        (filter (fun k => num_le (IZR k) loanTermYears) requestedYears).
Proof.
  intros HL Ha HT; unfold calculateAmortizationMilestones.
  rewrite calculateAmortizationMilestones_fuel_walk
    by (assumption || apply Nat.le_refl).
  reflexivity.
Qed.

(** *** The walk in closed form *)

Section ClosedForm.

Variables monthlyRate factor loanAmount : R.
Hypothesis factor_gt_1 : 1 < factor.

Lemma walk_closed_form (k : nat) :
  walk monthlyRate (loanAmount * (monthlyRate * factor) / (factor - 1)) loanAmount k
  = (loanAmount * (factor - (1 + monthlyRate) ^ k) / (factor - 1),
     loanAmount * ((1 + monthlyRate) ^ k - 1) / (factor - 1),
     INR k * (loanAmount * (monthlyRate * factor) / (factor - 1))
     - loanAmount * ((1 + monthlyRate) ^ k - 1) / (factor - 1)).
Proof.
  induction k as [| k IH].
  - cbn [walk pow INR]; f_equal; [f_equal |]; field; lra.
  - cbn [walk]; rewrite IH; unfold walkMonth.
    rewrite S_INR; cbn [pow]; f_equal; [f_equal |]; field; lra.
Qed.

End ClosedForm.

Lemma months_within_term (loanTermYears : R) (k : Z) :
  (0 <= k)%Z -> IZR k <= loanTermYears ->
  INR (Z.to_nat (k * 12)) <= loanTermYears * 12.
Proof.
  intros Hk HkT.
  rewrite INR_IZR_INZ, Z2Nat.id by lia.
  rewrite mult_IZR; lra.
Qed.

(** A milestone of a non-degenerate loan, for a year within the term:
    principal paid and the balance still owed, in closed form. *)
Lemma milestoneAt_closed_form
    (loanAmount annualInterestRate loanTermYears : R) (k : Z) :
  0 < loanAmount -> 0 < annualInterestRate -> 0 < loanTermYears ->
  (0 <= k)%Z -> IZR k <= loanTermYears ->
  let monthlyRate := annualInterestRate / 12 in
  let factor := Math_pow (1 + monthlyRate) (loanTermYears * 12) in
  let paidFactor := (1 + monthlyRate) ^ Z.to_nat (k * 12) in
  let m := milestoneAt loanAmount annualInterestRate loanTermYears k in
  paidFactor <= factor /\
  AmortizationMilestone.principalPaid m
    = loanAmount * (paidFactor - 1) / (factor - 1) /\
  AmortizationMilestone.remainingBalance m
    = loanAmount * (factor - paidFactor) / (factor - 1).
Proof.
  intros HL Ha HT Hk HkT monthlyRate factor paidFactor m.
  assert (Hf : 1 < factor) by (unfold factor; apply Math_pow_gt_1; unfold monthlyRate; lra).
  assert (Hpf : paidFactor <= factor).
  { unfold paidFactor, factor.
    rewrite <- Math_pow_nat by (unfold monthlyRate; lra).
    unfold Math_pow; apply Rle_Rpower; [unfold monthlyRate; lra |].
    apply months_within_term; assumption. }
  split; [exact Hpf |].
  subst m; unfold milestoneAt.
  rewrite calculateMonthlyPIRepayment_amortizing by assumption.
  fold monthlyRate; fold factor.
  rewrite (walk_closed_form monthlyRate factor loanAmount Hf).
  fold paidFactor; unfold snapshot.
  cbn [AmortizationMilestone.principalPaid AmortizationMilestone.remainingBalance].
  split; [reflexivity |].
  apply Math_max_floor_pos.
  apply Rmult_le_pos; [apply Rmult_le_pos; lra |].
  left; apply Rinv_0_lt_compat; lra.
Qed.

Lemma milestoneAt_balances
    (loanAmount annualInterestRate loanTermYears : R) (k : Z) :
  0 < loanAmount -> 0 < annualInterestRate -> 0 < loanTermYears ->
  (0 <= k)%Z -> IZR k <= loanTermYears ->
  AmortizationMilestone.principalPaid
    (milestoneAt loanAmount annualInterestRate loanTermYears k)
  + AmortizationMilestone.remainingBalance
      (milestoneAt loanAmount annualInterestRate loanTermYears k)
  = loanAmount.
Proof.
  intros HL Ha HT Hk HkT.
  destruct (milestoneAt_closed_form _ _ _ k HL Ha HT Hk HkT) as [_ [-> ->]].
  assert (Hf : 1 < Math_pow (1 + annualInterestRate / 12) (loanTermYears * 12))
    by (apply Math_pow_gt_1; lra).
  field; lra.
Qed.

Lemma milestoneAt_progress
    (loanAmount annualInterestRate loanTermYears : R) (k1 k2 : Z) :
  0 < loanAmount -> 0 < annualInterestRate -> 0 < loanTermYears ->
  (0 <= k1)%Z -> IZR k1 <= loanTermYears ->
  (0 <= k2)%Z -> IZR k2 <= loanTermYears ->
  (k1 < k2)%Z ->
  AmortizationMilestone.principalPaid
    (milestoneAt loanAmount annualInterestRate loanTermYears k1)
  < AmortizationMilestone.principalPaid
      (milestoneAt loanAmount annualInterestRate loanTermYears k2) /\
  AmortizationMilestone.remainingBalance
    (milestoneAt loanAmount annualInterestRate loanTermYears k1)
  > AmortizationMilestone.remainingBalance
      (milestoneAt loanAmount annualInterestRate loanTermYears k2).
Proof.
  intros HL Ha HT Hk1 Hk1T Hk2 Hk2T Hlt.
  destruct (milestoneAt_closed_form _ _ _ k1 HL Ha HT Hk1 Hk1T) as [_ [-> ->]].
  destruct (milestoneAt_closed_form _ _ _ k2 HL Ha HT Hk2 Hk2T) as [_ [-> ->]].
  set (factor := Math_pow (1 + annualInterestRate / 12) (loanTermYears * 12)).
  assert (Hf : 1 < factor) by (unfold factor; apply Math_pow_gt_1; lra).
  assert (Hi : 0 < / (factor - 1)) by (apply Rinv_0_lt_compat; lra).
  assert (Hpow : (1 + annualInterestRate / 12) ^ Z.to_nat (k1 * 12)
                 < (1 + annualInterestRate / 12) ^ Z.to_nat (k2 * 12))
    by (apply Rlt_pow; [lra | lia]).
  unfold Rdiv; split.
  - apply Rmult_lt_compat_r; [exact Hi |].
    apply Rmult_lt_compat_l; [exact HL | lra].
  - apply Rlt_gt; apply Rmult_lt_compat_r; [exact Hi |].
    apply Rmult_lt_compat_l; [exact HL | lra].
Qed.

Lemma years_within_term_integer (t : Z) (l : list Z) :
  filter (fun k => num_le (IZR k) (IZR t)) l = filter (fun k => (k <=? t)%Z) l.
Proof.
  apply filter_ext; intros k.
  destruct (Z.leb_spec k t) as [Hle | Hgt].
  - apply num_le_true; apply IZR_le; exact Hle.
  - apply num_le_false; apply IZR_lt; exact Hgt.
Qed.

(** In exact arithmetic: for a positive loan amount, a positive rate and a
    whole number of years [t >= 1], the loop of
    [calculateAmortizationMilestones] ends within its bound and returns
    exactly one milestone for each of the years 1, 5, 10, 15, 20, 25, 30
    that does not exceed the term, in ascending order of year, each the
    snapshot at month [year * 12] of the month-by-month declining-balance
    walk.  Across the list [principalPaid] is strictly
    increasing and [remainingBalance] is non-increasing, and every
    milestone, the last one in particular, satisfies
    [principalPaid + remainingBalance = loanAmount]. *)
Lemma calculateAmortizationMilestones_schedule
    (loanAmount annualInterestRate : R) (t : Z) :
  0 < loanAmount -> 0 < annualInterestRate -> (1 <= t)%Z ->
  let loanTermYears := IZR t in
  let ms := calculateAmortizationMilestones loanAmount annualInterestRate loanTermYears in
  let years := filter (fun y => (y <=? t)%Z) [1; 5; 10; 15; 20; 25; 30]%Z in
  (forall fuel : nat, (scheduleFuel <= fuel)%nat ->
     calculateAmortizationMilestones_fuel fuel
       loanAmount annualInterestRate loanTermYears = Some ms) /\
  map AmortizationMilestone.year ms = map IZR years /\
  strictlyIncreasing (map AmortizationMilestone.year ms) /\
  ms = map (fun y =>
              snapshot (IZR y)
                (walk (annualInterestRate / 12)
                   (calculateMonthlyPIRepayment loanAmount annualInterestRate loanTermYears)
                   loanAmount (Z.to_nat (y * 12))))
           years /\
  strictlyIncreasing (map AmortizationMilestone.principalPaid ms) /\
  nonIncreasing (map AmortizationMilestone.remainingBalance ms) /\
  Forall (fun m => AmortizationMilestone.principalPaid m
                   + AmortizationMilestone.remainingBalance m = loanAmount) ms /\
  ms <> [] /\
  (forall d : AmortizationMilestone.t,
     AmortizationMilestone.principalPaid (last ms d)
     + AmortizationMilestone.remainingBalance (last ms d) = loanAmount).
Proof.
  intros HL Ha Ht loanTermYears ms years.
  assert (HT : 0 < loanTermYears) by (unfold loanTermYears; apply IZR_lt; lia).
  assert (Hms : ms = map (milestoneAt loanAmount annualInterestRate loanTermYears) years).
  { unfold ms; rewrite calculateAmortizationMilestones_walk by assumption.
    unfold loanTermYears; rewrite years_within_term_integer; reflexivity. }
  assert (Hyears : Forall (fun k => (0 <= k)%Z /\ IZR k <= loanTermYears) years).
  { rewrite Forall_forall; intros k Hk; apply filter_In in Hk.
    destruct Hk as [Hin Hle]; apply Z.leb_le in Hle.
    split; [apply (requestedYears_range k) in Hin; lia | apply IZR_le; exact Hle]. }
  assert (Hsorted : StronglySorted Z.lt years)
    by (apply StronglySorted_filter; exact requestedYears_sorted).
  assert (Hbal : Forall (fun m => AmortizationMilestone.principalPaid m
                   + AmortizationMilestone.remainingBalance m = loanAmount) ms).
  { rewrite Hms, Forall_map.
    apply (Forall_impl _ (P := fun k => (0 <= k)%Z /\ IZR k <= loanTermYears));
      [| exact Hyears].
    intros k [Hk HkT]; apply milestoneAt_balances; assumption. }
  assert (Hne : ms <> []).
  { rewrite Hms; unfold years; cbn [filter].
    rewrite (proj2 (Z.leb_le 1 t) Ht); discriminate. }
  assert (Hyr : map AmortizationMilestone.year ms = map IZR years).
  { rewrite Hms, map_map; apply map_ext; intros k; reflexivity. }
  split; [intros fuel Hfuel; apply schedule_fuel_enough; exact Hfuel |].
  split; [exact Hyr |].
  split.
  { rewrite Hyr; unfold strictlyIncreasing.
    apply (StronglySorted_map_mono Z.lt Rlt IZR (fun _ => True));
      [intros x y _ _ Hxy; apply IZR_lt; exact Hxy
      | rewrite Forall_forall; intros; exact I | exact Hsorted]. }
  split; [exact Hms |].
  split.
  { rewrite Hms, map_map; unfold strictlyIncreasing.
    apply (StronglySorted_map_mono Z.lt Rlt _
             (fun k => (0 <= k)%Z /\ IZR k <= loanTermYears));
      [| exact Hyears | exact Hsorted].
    intros x y [Hx HxT] [Hy HyT] Hxy.
    apply milestoneAt_progress; assumption. }
  split.
  { rewrite Hms, map_map; unfold nonIncreasing.
    apply (StronglySorted_map_mono Z.lt Rge _
             (fun k => (0 <= k)%Z /\ IZR k <= loanTermYears));
      [| exact Hyears | exact Hsorted].
    intros x y [Hx HxT] [Hy HyT] Hxy.
    apply Rgt_ge; apply milestoneAt_progress; assumption. }
  split; [exact Hbal |].
  split; [exact Hne |].
  intros d; rewrite Forall_forall in Hbal; apply Hbal.
  destruct (exists_last Hne) as [front [final Hfinal]].
  rewrite Hfinal, last_last; apply in_or_app; right; left; reflexivity.
Qed.

(** *** The schedule on doubles *)

Section VanishingRate.
Import PrimFloat.
Local Open Scope float_scope.

(** C3 on doubles.  The rate 1e-15, the double [0x1.203af9ee75616p-50], is
    positive and within the validation limits, yet [1 + rate / 12] rounds to
    1: the growth factor is 1 and the repayment divides by [factor - 1 = 0].
    For a loan of 480000 over 30 years the repayment is infinite, and each
    of the seven milestones reports an infinite principal paid, an infinite
    negative interest paid and a remaining balance of 0: the principal paid
    does not increase from milestone to milestone and does not add up with
    the balance to the loan amount. *)
Theorem calculateAmortizationMilestones_vanishing_rate :
  (0 <? 0x1.203af9ee75616p-50) = true /\
  (0x1.203af9ee75616p-50 <=? 0.25) = true /\
  1 + 0x1.203af9ee75616p-50 / 12 = 1 /\
  Float64.calculateMonthlyPIRepayment 480000 0x1.203af9ee75616p-50 30
  = Some infinity /\
  Float64.calculateAmortizationMilestones 480000 0x1.203af9ee75616p-50 30
  = Some (map (fun y => Float64.AmortizationMilestone.mk y infinity neg_infinity 0)
              [1; 5; 10; 15; 20; 25; 30]).
Proof.
  repeat split; vm_compute; reflexivity.
Qed.

End VanishingRate.

(** ** Worked examples of the specification *)

Example calculateGrossRent_example : calculateGrossRent 550 2 1 = 27500.
Proof. unfold calculateGrossRent, WEEKS_PER_YEAR; lra. Qed.

Example calculateInterestExpense_example :
  calculateInterestExpense 480000 (6 / 100) 1 = 28800.
Proof. unfold calculateInterestExpense; lra. Qed.

Example calculateNetCashflowPreTax_example :
  calculateNetCashflowPreTax 27500 7000 28800 = -8300.
Proof. unfold calculateNetCashflowPreTax; lra. Qed.

Example calculateCapitalWorksDeduction_example :
  calculateCapitalWorksDeduction 300000 1 = 7500.
Proof. unfold calculateCapitalWorksDeduction, CAPITAL_WORKS_RATE; lra. Qed.

Example calculateTotalDepreciation_example :
  calculateTotalDepreciation 7500 5000 = 12500.
Proof. unfold calculateTotalDepreciation; lra. Qed.

Example calculateNetRentalResult_example :
  calculateNetRentalResult (-8300) 12500 = -20800.
Proof. unfold calculateNetRentalResult; lra. Qed.

Example calculateMonthlyIORepayment_example :
  calculateMonthlyIORepayment 480000 (6 / 100) = 2400.
Proof.
  unfold calculateMonthlyIORepayment.
  rewrite (proj2 (num_le_false 480000 0)) by lra.
  rewrite (proj2 (num_le_false (6 / 100) 0)) by lra.
  cbn [orb]; lra.
Qed.

(** A one-month loan at a monthly rate of one: the single repayment is
    principal plus one month of interest. *)
Example calculateMonthlyPIRepayment_one_month :
  calculateMonthlyPIRepayment 1000 12 (/ 12) = 2000.
Proof.
  rewrite calculateMonthlyPIRepayment_amortizing
    by (lra || (apply Rinv_0_lt_compat; lra)).
  replace (/ 12 * 12) with 1 by lra.
  unfold Math_pow; rewrite Rpower_1 by lra; lra.
Qed.

(** * Further properties of the engine and of its callers *)

(** ** Loan calculator: repayments and total interest *)

Lemma Math_pow_discount (r n : R) :
  0 < r -> 0 < n -> Math_pow (1 + r) n * (1 - n * r) < 1.
Proof.
  intros Hr Hn; unfold Math_pow, Rpower.
  set (E := exp (n * ln (1 + r))).
  assert (HE : 0 < E) by (unfold E; apply exp_pos).
  destruct (Rle_lt_dec (1 - n * r) 0) as [Hneg | Hpos]; [nra |].
  assert (Hln : ln (1 + r) < r).
  { pose proof (ln_tangent_strict (1 + r)) as H; lra. }
  assert (HEX : E < exp (n * r)).
  { unfold E; apply exp_increasing; apply Rmult_lt_compat_l; assumption. }
  pose proof (exp_ineq1_le (- (n * r))) as HY.
  assert (HXY : exp (n * r) * exp (- (n * r)) = 1).
  { rewrite <- exp_plus, Rplus_opp_r; apply exp_0. }
  pose proof (exp_pos (n * r)) as HX.
  apply Rlt_le_trans with (exp (n * r) * (1 - n * r)).
  - apply Rmult_lt_compat_r; assumption.
  - rewrite <- HXY; apply Rmult_le_compat_l; lra.
Qed.

Lemma calculateTotalInterestPI_closed_form
    (loanAmount annualInterestRate loanTermYears : R) :
  0 < loanAmount -> 0 < annualInterestRate -> 0 < loanTermYears ->
  let factor := Math_pow (1 + annualInterestRate / 12) (loanTermYears * 12) in
  calculateTotalInterestPI loanAmount annualInterestRate loanTermYears
  = loanAmount * (1 - factor * (1 - loanTermYears * 12 * (annualInterestRate / 12)))
    / (factor - 1).
Proof.
  intros HL Ha HT factor; unfold calculateTotalInterestPI.
  rewrite calculateMonthlyPIRepayment_amortizing by assumption.
  fold factor.
  assert (Hf : 1 < factor) by (unfold factor; apply Math_pow_gt_1; lra).
  field; lra.
Qed.

(** X1. On a loan of ordinary size the interest-only repayment is
    [loanAmount * rate / 12] as the code evaluates it, it is positive, and
    the principal-and-interest repayment is strictly larger: the monthly
    saving of interest-only is positive. *)
Theorem interest_only_repayment_is_lower
    (loanAmount annualInterestRate loanTermYears : R) :
  ordinaryLoan loanAmount annualInterestRate loanTermYears ->
  let c := calculateLoanComparison loanAmount annualInterestRate loanTermYears in
  LoanComparisonResults.monthlyIO c = loanAmount * annualInterestRate / 12 /\
  0 < LoanComparisonResults.monthlyIO c /\
  LoanComparisonResults.monthlyIO c < LoanComparisonResults.monthlyPI c /\
  0 < LoanComparisonResults.monthlySavingsIO c /\
  LoanComparisonResults.annualIO c < LoanComparisonResults.annualPI c.
Proof.
  intros Hord c; destruct Hord as [[HL1 _] [[Ha1 _] [HT1 _]]].
  assert (HL : 0 < loanAmount) by lra.
  assert (Ha : 0 < annualInterestRate) by lra.
  assert (HT : 0 < loanTermYears) by lra.
  subst c; unfold calculateLoanComparison.
  cbn [LoanComparisonResults.monthlyIO LoanComparisonResults.monthlyPI
       LoanComparisonResults.monthlySavingsIO LoanComparisonResults.annualIO
       LoanComparisonResults.annualPI].
  rewrite calculateMonthlyPIRepayment_amortizing by assumption.
  unfold calculateMonthlyIORepayment.
  rewrite (proj2 (num_le_false loanAmount 0)) by lra.
  rewrite (proj2 (num_le_false annualInterestRate 0)) by lra.
  cbn [orb].
  set (factor := Math_pow (1 + annualInterestRate / 12) (loanTermYears * 12)).
  assert (Hf : 1 < factor) by (unfold factor; apply Math_pow_gt_1; lra).
  assert (Hi : 0 < / (factor - 1)) by (apply Rinv_0_lt_compat; lra).
  assert (Hio : 0 < loanAmount * annualInterestRate / 12)
    by (apply Rdiv_lt_0_compat; [apply Rmult_lt_0_compat; assumption | lra]).
  assert (Hgap : loanAmount * (annualInterestRate / 12 * factor) / (factor - 1)
                 - loanAmount * annualInterestRate / 12
                 = loanAmount * annualInterestRate / 12 * / (factor - 1))
    by (field; lra).
  assert (Hpos : 0 < loanAmount * annualInterestRate / 12 * / (factor - 1))
    by (apply Rmult_lt_0_compat; assumption).
  repeat split; lra.
Qed.

Lemma interest_only_repayment_is_lower_witness :
  LoanComparisonResults.monthlyIO (calculateLoanComparison 480000 (6 / 100) 30)
  < LoanComparisonResults.monthlyPI (calculateLoanComparison 480000 (6 / 100) 30).
Proof.
  apply (interest_only_repayment_is_lower 480000 (6 / 100) 30).
  unfold ordinaryLoan; lra.
Defined.

(** X2. A principal-and-interest loan of ordinary size costs interest:
    [calculateTotalInterestPI] is strictly positive, whether or not the term
    is a whole number of years. *)
Theorem calculateTotalInterestPI_positive
    (loanAmount annualInterestRate loanTermYears : R) :
  ordinaryLoan loanAmount annualInterestRate loanTermYears ->
  0 < calculateTotalInterestPI loanAmount annualInterestRate loanTermYears.
Proof.
  intros [[HL1 _] [[Ha1 _] [HT1 _]]].
  assert (HL : 0 < loanAmount) by lra.
  assert (Ha : 0 < annualInterestRate) by lra.
  assert (HT : 0 < loanTermYears) by lra.
  rewrite calculateTotalInterestPI_closed_form by assumption.
  cbv zeta.
  set (factor := Math_pow (1 + annualInterestRate / 12) (loanTermYears * 12)).
  assert (Hf : 1 < factor) by (unfold factor; apply Math_pow_gt_1; lra).
  assert (Hd : factor * (1 - loanTermYears * 12 * (annualInterestRate / 12)) < 1)
    by (unfold factor; apply Math_pow_discount; lra).
  apply Rdiv_lt_0_compat; [apply Rmult_lt_0_compat; lra | lra].
Qed.

Lemma calculateTotalInterestPI_positive_witness :
  0 < calculateTotalInterestPI 480000 (6 / 100) 30.
Proof.
  apply (calculateTotalInterestPI_positive 480000 (6 / 100) 30).
  unfold ordinaryLoan; lra.
Defined.

(** X4. With a loan amount or a term that is not positive the repayment is
    0 and no payment is counted, so [calculateTotalInterestPI] returns the
    negated loan amount: a negative total interest on a positive loan with
    a zero term. *)
Theorem calculateTotalInterestPI_degenerate
    (loanAmount annualInterestRate loanTermYears : R) :
  loanAmount <= 0 \/ loanTermYears <= 0 ->
  calculateTotalInterestPI loanAmount annualInterestRate loanTermYears = - loanAmount /\
  LoanComparisonResults.extraInterestIO
    (calculateLoanComparison loanAmount annualInterestRate loanTermYears)
  = loanAmount * annualInterestRate * loanTermYears + loanAmount.
Proof.
  intros H.
  assert (Hm : calculateMonthlyPIRepayment loanAmount annualInterestRate loanTermYears = 0).
  { unfold calculateMonthlyPIRepayment; destruct H as [H | H].
    - rewrite (proj2 (num_le_true loanAmount 0)) by exact H; reflexivity.
    - rewrite (proj2 (num_le_true loanTermYears 0)) by exact H.
      rewrite orb_true_r; reflexivity. }
  unfold calculateLoanComparison, calculateTotalInterestPI, calculateTotalInterestIO.
  cbn [LoanComparisonResults.extraInterestIO].
  rewrite Hm; split; lra.
Qed.

Lemma calculateTotalInterestPI_degenerate_witness :
  calculateTotalInterestPI 480000 (6 / 100) 0 = - 480000.
Proof.
  apply (calculateTotalInterestPI_degenerate 480000 (6 / 100) 0); right; lra.
Defined.

(** ** Loan calculator: the schedule for every input *)

Lemma calculateAmortizationMilestones_guard
    (loanAmount annualInterestRate loanTermYears : R) :
  loanAmount <= 0 \/ annualInterestRate <= 0 \/ loanTermYears <= 0 ->
  calculateAmortizationMilestones loanAmount annualInterestRate loanTermYears = [].
Proof.
  intros H; unfold calculateAmortizationMilestones, calculateAmortizationMilestones_fuel.
  destruct H as [H | [H | H]].
  - rewrite (proj2 (num_le_true loanAmount 0)) by exact H; reflexivity.
  - rewrite (proj2 (num_le_true annualInterestRate 0)) by exact H.
    rewrite orb_true_r; reflexivity.
  - rewrite (proj2 (num_le_true loanTermYears 0)) by exact H.
    rewrite orb_true_r; reflexivity.
Qed.

Lemma years_within_term
    (loanTermYears : R) (k : Z) :
  In k (filter (fun k => num_le (IZR k) loanTermYears) requestedYears) ->
  (1 <= k <= 30)%Z /\ IZR k <= loanTermYears.
Proof.
  intros Hk; apply filter_In in Hk; destruct Hk as [Hin Hle].
  split; [apply requestedYears_range; exact Hin | apply num_le_true; exact Hle].
Qed.

(** The two book-keeping invariants of the walk, whatever the rate and the
    repayment: the balance and the principal paid add up to the loan, and
    principal and interest paid add up to the repayments made. *)
Lemma walk_accounts (monthlyRate monthlyPayment loanAmount : R) (k : nat) :
  fst (fst (walk monthlyRate monthlyPayment loanAmount k))
  + snd (fst (walk monthlyRate monthlyPayment loanAmount k)) = loanAmount /\
  snd (fst (walk monthlyRate monthlyPayment loanAmount k))
  + snd (walk monthlyRate monthlyPayment loanAmount k) = INR k * monthlyPayment.
Proof.
  induction k as [| k [IHb IHp]].
  - cbn [walk fst snd INR]; split; lra.
  - cbn [walk]; rewrite S_INR.
    destruct (walk monthlyRate monthlyPayment loanAmount k) as [[b p] i].
    cbn [walkMonth fst snd] in *; split; lra.
Qed.

Lemma compound_growth_below_linear (r : R) (k : nat) :
  0 < r -> (1 + r) ^ S k - 1 < INR (S k) * r * (1 + r) ^ S k.
Proof.
  intros Hr; induction k as [| k IH].
  - cbn [pow INR]; nra.
  - assert (Hp : 0 < (1 + r) ^ S k) by (apply pow_lt; lra).
    assert (Hk : 0 < INR (S k)) by (apply lt_0_INR; lia).
    rewrite (S_INR (S k)).
    change ((1 + r) ^ S (S k)) with ((1 + r) * (1 + r) ^ S k).
    set (q := (1 + r) ^ S k) in *.
    assert (Hrq : 0 < r * q) by (apply Rmult_lt_0_compat; assumption).
    assert (Hkq : 0 < INR (S k) * (r * (r * q))).
    { apply Rmult_lt_0_compat; [exact Hk |].
      apply Rmult_lt_0_compat; [exact Hr | exact Hrq]. }
    nra.
Qed.

(** X5. For every input, degenerate or not, the schedule loop is left
    within the bound of 361 passes, however long the term; the result has at
    most seven milestones, each for a requested year that does not exceed
    the term. *)
Theorem schedule_loop_ends_within_bound
    (loanAmount annualInterestRate loanTermYears : R) :
  (forall fuel : nat, (scheduleFuel <= fuel)%nat ->
     calculateAmortizationMilestones_fuel fuel loanAmount annualInterestRate loanTermYears
     = Some (calculateAmortizationMilestones loanAmount annualInterestRate loanTermYears)) /\
  (List.length (calculateAmortizationMilestones loanAmount annualInterestRate loanTermYears)
   <= 7)%nat /\
  Forall (fun m => In (AmortizationMilestone.year m) [1; 5; 10; 15; 20; 25; 30]
                   /\ AmortizationMilestone.year m <= loanTermYears)
    (calculateAmortizationMilestones loanAmount annualInterestRate loanTermYears).
Proof.
  split; [intros fuel Hfuel; apply schedule_fuel_enough; exact Hfuel |].
  destruct (Rle_lt_dec loanAmount 0) as [HL | HL];
    [| destruct (Rle_lt_dec annualInterestRate 0) as [Ha | Ha];
       [| destruct (Rle_lt_dec loanTermYears 0) as [HT | HT]]];
    try (rewrite calculateAmortizationMilestones_guard by tauto;
         split; [cbn [List.length]; lia | constructor]).
  rewrite calculateAmortizationMilestones_walk by assumption.
  split.
  - rewrite length_map.
    apply Nat.le_trans with (List.length requestedYears);
      [apply filter_length_le | cbn [List.length requestedYears]; lia].
  - rewrite Forall_map, Forall_forall; intros k Hk.
    destruct (years_within_term _ _ Hk) as [_ HkT].
    apply filter_In in Hk; destruct Hk as [Hin _].
    split; [| exact HkT].
    change (In (IZR k) (map IZR requestedYears)); apply in_map; exact Hin.
Qed.

Lemma schedule_loop_ends_within_bound_witness :
  calculateAmortizationMilestones_fuel 5000 480000 (6 / 100) 400
  = Some (calculateAmortizationMilestones 480000 (6 / 100) 400).
Proof.
  apply (proj1 (schedule_loop_ends_within_bound 480000 (6 / 100) 400)).
  unfold scheduleFuel; lia.
Defined.

(** In exact arithmetic, on a non-degenerate loan with any real term, every
    milestone lies within the loan: the principal paid is positive and at
    most the loan amount, the remaining balance is between 0 and the loan
    amount, and the two add up to the loan amount; a term shorter than one
    year yields no milestone at all. *)
Lemma milestones_within_loan_exact
    (loanAmount annualInterestRate loanTermYears : R) :
  0 < loanAmount -> 0 < annualInterestRate -> 0 < loanTermYears ->
  Forall (fun m =>
            0 < AmortizationMilestone.principalPaid m <= loanAmount /\
            0 <= AmortizationMilestone.remainingBalance m < loanAmount /\
            AmortizationMilestone.principalPaid m
            + AmortizationMilestone.remainingBalance m = loanAmount)
    (calculateAmortizationMilestones loanAmount annualInterestRate loanTermYears) /\
  (loanTermYears < 1 ->
   calculateAmortizationMilestones loanAmount annualInterestRate loanTermYears = []).
Proof.
  intros HL Ha HT.
  rewrite calculateAmortizationMilestones_walk by assumption.
  split.
  - rewrite Forall_map, Forall_forall; intros k Hk.
    destruct (years_within_term _ _ Hk) as [Hr HkT].
    assert (Hk0 : (0 <= k)%Z) by lia.
    pose proof (milestoneAt_balances _ _ _ k HL Ha HT Hk0 HkT) as Hsum.
    destruct (milestoneAt_closed_form _ _ _ k HL Ha HT Hk0 HkT) as [Hpf [Hp Hb]].
    cbv zeta in Hpf, Hp, Hb.
    set (factor := Math_pow (1 + annualInterestRate / 12) (loanTermYears * 12)) in *.
    set (paidFactor := (1 + annualInterestRate / 12) ^ Z.to_nat (k * 12)) in *.
    assert (Hf : 1 < factor) by (unfold factor; apply Math_pow_gt_1; lra).
    assert (Hi : 0 < / (factor - 1)) by (apply Rinv_0_lt_compat; lra).
    assert (Hgrow : 1 < paidFactor).
    { unfold paidFactor.
      replace (Z.to_nat (k * 12)) with (S (Z.to_nat (k * 12) - 1)) by lia.
      apply Rlt_pow_R1; [lra | lia]. }
    assert (Hpaid : 0 < AmortizationMilestone.principalPaid
                          (milestoneAt loanAmount annualInterestRate loanTermYears k)).
    { rewrite Hp; apply Rdiv_lt_0_compat; [apply Rmult_lt_0_compat; lra | lra]. }
    assert (Howed : 0 <= AmortizationMilestone.remainingBalance
                           (milestoneAt loanAmount annualInterestRate loanTermYears k)).
    { rewrite Hb; apply Rmult_le_pos; [apply Rmult_le_pos; lra | lra]. }
    repeat split; lra.
  - intros Hshort.
    unfold requestedYears; cbn [filter].
    rewrite !(proj2 (num_le_false _ loanTermYears)) by lra.
    reflexivity.
Qed.

Lemma milestones_progress
    (loanAmount annualInterestRate loanTermYears : R) :
  0 < loanAmount -> 0 < annualInterestRate -> 0 < loanTermYears ->
  strictlyIncreasing
    (map AmortizationMilestone.principalPaid
       (calculateAmortizationMilestones loanAmount annualInterestRate loanTermYears)) /\
  nonIncreasing
    (map AmortizationMilestone.remainingBalance
       (calculateAmortizationMilestones loanAmount annualInterestRate loanTermYears)).
Proof.
  intros HL Ha HT.
  rewrite calculateAmortizationMilestones_walk by assumption.
  set (years := filter (fun k => num_le (IZR k) loanTermYears) requestedYears).
  assert (Hyears : Forall (fun k => (0 <= k)%Z /\ IZR k <= loanTermYears) years).
  { rewrite Forall_forall; intros k Hk.
    destruct (years_within_term _ _ Hk) as [Hr HkT]; split; [lia | exact HkT]. }
  assert (Hsorted : StronglySorted Z.lt years)
    by (apply StronglySorted_filter; exact requestedYears_sorted).
  split.
  - rewrite map_map; unfold strictlyIncreasing.
    apply (StronglySorted_map_mono Z.lt Rlt _
             (fun k => (0 <= k)%Z /\ IZR k <= loanTermYears));
      [| exact Hyears | exact Hsorted].
    intros x y [Hx HxT] [Hy HyT] Hxy.
    apply milestoneAt_progress; assumption.
  - rewrite map_map; unfold nonIncreasing.
    apply (StronglySorted_map_mono Z.lt Rge _
             (fun k => (0 <= k)%Z /\ IZR k <= loanTermYears));
      [| exact Hyears | exact Hsorted].
    intros x y [Hx HxT] [Hy HyT] Hxy.
    apply Rgt_ge; apply milestoneAt_progress; assumption.
Qed.

(** X6. On a loan of ordinary size, with any real term, every milestone lies
    within the loan: the principal paid is positive, the remaining balance
    is at least 0 and below the loan amount, and the two add up to the loan
    amount to within a millionth of it.  From milestone to milestone the
    principal paid strictly increases and the remaining balance does not
    increase. *)
Theorem milestones_stay_within_loan
    (loanAmount annualInterestRate loanTermYears : R) :
  ordinaryLoan loanAmount annualInterestRate loanTermYears ->
  let ms := calculateAmortizationMilestones loanAmount annualInterestRate loanTermYears in
  Forall (fun m =>
            0 < AmortizationMilestone.principalPaid m /\
            0 <= AmortizationMilestone.remainingBalance m < loanAmount /\
            Rabs (AmortizationMilestone.principalPaid m
                  + AmortizationMilestone.remainingBalance m - loanAmount)
            <= loanAmount / 1000000) ms /\
  strictlyIncreasing (map AmortizationMilestone.principalPaid ms) /\
  nonIncreasing (map AmortizationMilestone.remainingBalance ms).
Proof.
  intros Hord ms; subst ms; destruct Hord as [[HL1 _] [[Ha1 _] [HT1 _]]].
  assert (HL : 0 < loanAmount) by lra.
  assert (Ha : 0 < annualInterestRate) by lra.
  assert (HT : 0 < loanTermYears) by lra.
  split; [| apply milestones_progress; assumption].
  destruct (milestones_within_loan_exact _ _ _ HL Ha HT) as [Hall _].
  revert Hall; apply Forall_impl; intros m [[Hp _] [Hb Hsum]].
  rewrite Hsum, Rminus_diag, Rabs_R0.
  repeat split; lra.
Qed.

Lemma milestones_stay_within_loan_witness :
  strictlyIncreasing
    (map AmortizationMilestone.principalPaid
       (calculateAmortizationMilestones 480000 (6 / 100) 30)).
Proof.
  apply (milestones_stay_within_loan 480000 (6 / 100) 30).
  unfold ordinaryLoan; lra.
Defined.

(** In exact arithmetic, on a non-degenerate loan with any real term, the
    principal and the interest reported at a milestone add up to the
    repayments made by then, [year * 12] times the monthly repayment, and
    the interest paid is positive. *)
Lemma milestones_accounts_exact
    (loanAmount annualInterestRate loanTermYears : R) :
  0 < loanAmount -> 0 < annualInterestRate -> 0 < loanTermYears ->
  Forall (fun m =>
            AmortizationMilestone.principalPaid m + AmortizationMilestone.interestPaid m
            = AmortizationMilestone.year m * 12
              * calculateMonthlyPIRepayment loanAmount annualInterestRate loanTermYears /\
            0 < AmortizationMilestone.interestPaid m)
    (calculateAmortizationMilestones loanAmount annualInterestRate loanTermYears).
Proof.
  intros HL Ha HT.
  rewrite calculateAmortizationMilestones_walk by assumption.
  rewrite Forall_map, Forall_forall; intros k Hk.
  destruct (years_within_term _ _ Hk) as [Hr HkT].
  assert (Hk0 : (0 <= k)%Z) by lia.
  destruct (milestoneAt_closed_form _ _ _ k HL Ha HT Hk0 HkT) as [Hpf [Hp _]].
  cbv zeta in Hpf, Hp.
  pose proof (months_within_term loanTermYears k Hk0 HkT) as Hmonths.
  assert (Hn : INR (Z.to_nat (k * 12)) = IZR k * 12)
    by (rewrite INR_IZR_INZ, Z2Nat.id by lia; apply mult_IZR).
  assert (Hacc :
    AmortizationMilestone.principalPaid
      (milestoneAt loanAmount annualInterestRate loanTermYears k)
    + AmortizationMilestone.interestPaid
        (milestoneAt loanAmount annualInterestRate loanTermYears k)
    = IZR k * 12
      * calculateMonthlyPIRepayment loanAmount annualInterestRate loanTermYears).
  { unfold milestoneAt, snapshot.
    cbn [AmortizationMilestone.principalPaid AmortizationMilestone.interestPaid].
    rewrite <- Hn; apply walk_accounts. }
  split; [exact Hacc |].
  rewrite Hp in Hacc.
  rewrite calculateMonthlyPIRepayment_amortizing in Hacc by assumption.
  set (factor := Math_pow (1 + annualInterestRate / 12) (loanTermYears * 12)) in *.
  set (r := annualInterestRate / 12) in *.
  assert (Hf : 1 < factor) by (unfold factor; apply Math_pow_gt_1; unfold r; lra).
  assert (Hi : 0 < / (factor - 1)) by (apply Rinv_0_lt_compat; lra).
  assert (Hlin : (1 + r) ^ Z.to_nat (k * 12) - 1
                 < INR (Z.to_nat (k * 12)) * r * (1 + r) ^ Z.to_nat (k * 12)).
  { replace (Z.to_nat (k * 12)) with (S (Z.to_nat (k * 12) - 1)) by lia.
    apply compound_growth_below_linear; unfold r; lra. }
  rewrite Hn in Hlin.
  set (paidFactor := (1 + r) ^ Z.to_nat (k * 12)) in *.
  assert (Hkr : 0 < IZR k * 12 * r)
    by (apply Rmult_lt_0_compat; [apply Rmult_lt_0_compat; [apply IZR_lt; lia | lra]
                                 | unfold r; lra]).
  assert (Hnum : 0 < IZR k * 12 * r * factor - (paidFactor - 1)) by nra.
  assert (Hint :
    AmortizationMilestone.interestPaid
      (milestoneAt loanAmount annualInterestRate loanTermYears k)
    = loanAmount * (IZR k * 12 * r * factor - (paidFactor - 1)) * / (factor - 1)).
  { apply Rplus_eq_reg_l with (loanAmount * (paidFactor - 1) / (factor - 1)).
    rewrite Hacc; field; lra. }
  rewrite Hint.
  apply Rmult_lt_0_compat; [apply Rmult_lt_0_compat; assumption | exact Hi].
Qed.

(** X7. On a loan of ordinary size, with any real term, the principal and
    the interest reported at a milestone add up to the repayments made by
    then, [year * 12] times the monthly repayment, to within a millionth of
    the loan amount, and the interest paid is positive. *)
Theorem milestones_account_for_repayments
    (loanAmount annualInterestRate loanTermYears : R) :
  ordinaryLoan loanAmount annualInterestRate loanTermYears ->
  Forall (fun m =>
            Rabs (AmortizationMilestone.principalPaid m
                  + AmortizationMilestone.interestPaid m
                  - AmortizationMilestone.year m * 12
                    * calculateMonthlyPIRepayment
                        loanAmount annualInterestRate loanTermYears)
            <= loanAmount / 1000000 /\
            0 < AmortizationMilestone.interestPaid m)
    (calculateAmortizationMilestones loanAmount annualInterestRate loanTermYears).
Proof.
  intros [[HL1 _] [[Ha1 _] [HT1 _]]].
  assert (HL : 0 < loanAmount) by lra.
  assert (Ha : 0 < annualInterestRate) by lra.
  assert (HT : 0 < loanTermYears) by lra.
  pose proof (milestones_accounts_exact _ _ _ HL Ha HT) as Hall.
  revert Hall; apply Forall_impl; intros m [Hsum Hint].
  rewrite Hsum, Rminus_diag, Rabs_R0.
  split; lra.
Qed.

Lemma milestones_account_for_repayments_witness :
  Forall (fun m => 0 < AmortizationMilestone.interestPaid m)
    (calculateAmortizationMilestones 480000 (6 / 100) 30).
Proof.
  assert (Hord : ordinaryLoan 480000 (6 / 100) 30) by (unfold ordinaryLoan; lra).
  pose proof (milestones_account_for_repayments 480000 (6 / 100) 30 Hord) as Hall.
  revert Hall; apply Forall_impl; intros m [_ Hint]; exact Hint.
Defined.

Lemma filter_none {A : Type} (f : A -> bool) (l : list A) :
  (forall y, In y l -> f y = false) -> filter f l = [].
Proof.
  induction l as [| x l IH]; intros Hall; [reflexivity |].
  cbn [filter]; rewrite (Hall x (or_introl eq_refl)).
  apply IH; intros y Hy; apply Hall; right; exact Hy.
Qed.

Lemma last_of_requested_years (l : list Z) (t d : Z) :
  StronglySorted Z.lt l -> In t l ->
  last (filter (fun k => (k <=? t)%Z) l) d = t.
Proof.
  induction 1 as [| x l Hs IH Hall]; intros Hin; [destruct Hin |].
  rewrite Forall_forall in Hall.
  cbn [filter]; destruct Hin as [-> | Hin].
  - rewrite Z.leb_refl.
    rewrite filter_none; [reflexivity |].
    intros y Hy; apply Z.leb_gt; apply Hall; exact Hy.
  - rewrite (proj2 (Z.leb_le x t)) by (specialize (Hall t Hin); lia).
    specialize (IH Hin).
    destruct (filter (fun k => (k <=? t)%Z) l) as [| y rest] eqn:Hf.
    + exfalso.
      assert (Ht : In t (filter (fun k => (k <=? t)%Z) l))
        by (apply filter_In; split; [exact Hin | apply Z.leb_refl]).
      rewrite Hf in Ht; exact Ht.
    + exact IH.
Qed.

Lemma last_map_nonempty {A B : Type} (f : A -> B) (l : list A) (d : B) (d' : A) :
  l <> [] -> last (map f l) d = f (last l d').
Proof.
  induction l as [| x l IH]; intros Hne; [contradiction Hne; reflexivity |].
  destruct l as [| y l]; [reflexivity |].
  change (last (map f (y :: l)) d = f (last (y :: l) d')).
  apply IH; discriminate.
Qed.

(** In exact arithmetic, when the term is itself one of the requested
    years, the last milestone is the end of the loan: its year is the term,
    the remaining balance is 0, the principal paid is the whole loan
    amount, and the interest paid is the total that
    [calculateTotalInterestPI] reports. *)
Lemma schedule_pays_off_exact
    (loanAmount annualInterestRate : R) (t : Z) (d : AmortizationMilestone.t) :
  0 < loanAmount -> 0 < annualInterestRate ->
  In t [1; 5; 10; 15; 20; 25; 30]%Z ->
  let final :=
    last (calculateAmortizationMilestones loanAmount annualInterestRate (IZR t)) d in
  AmortizationMilestone.year final = IZR t /\
  AmortizationMilestone.remainingBalance final = 0 /\
  AmortizationMilestone.principalPaid final = loanAmount /\
  AmortizationMilestone.interestPaid final
    = calculateTotalInterestPI loanAmount annualInterestRate (IZR t).
Proof.
  intros HL Ha Hin final.
  assert (Ht : (1 <= t <= 30)%Z) by (apply requestedYears_range; exact Hin).
  assert (HT : 0 < IZR t) by (apply IZR_lt; lia).
  assert (Hfinal : final = milestoneAt loanAmount annualInterestRate (IZR t) t).
  { subst final.
    rewrite calculateAmortizationMilestones_walk, years_within_term_integer by assumption.
    rewrite (last_map_nonempty _ _ d 0%Z).
    - rewrite (last_of_requested_years requestedYears t 0%Z
                 requestedYears_sorted Hin); reflexivity.
    - intros Hnil.
      assert (Hmem : In t (filter (fun k => (k <=? t)%Z) requestedYears))
        by (apply filter_In; split; [exact Hin | apply Z.leb_refl]).
      rewrite Hnil in Hmem; exact Hmem. }
  assert (Ht0 : (0 <= t)%Z) by lia.
  destruct (milestoneAt_closed_form _ _ _ t HL Ha HT Ht0 (Rle_refl _)) as [_ [Hp Hb]].
  cbv zeta in Hp, Hb.
  assert (Hn : INR (Z.to_nat (t * 12)) = IZR t * 12)
    by (rewrite INR_IZR_INZ, Z2Nat.id by lia; apply mult_IZR).
  assert (Hfull : (1 + annualInterestRate / 12) ^ Z.to_nat (t * 12)
                  = Math_pow (1 + annualInterestRate / 12) (IZR t * 12))
    by (rewrite <- Hn; symmetry; apply Math_pow_nat; lra).
  rewrite Hfull in Hp, Hb.
  set (factor := Math_pow (1 + annualInterestRate / 12) (IZR t * 12)) in *.
  assert (Hf : 1 < factor) by (unfold factor; apply Math_pow_gt_1; lra).
  assert (Hpaid : AmortizationMilestone.principalPaid final = loanAmount)
    by (rewrite Hfinal, Hp; field; lra).
  split; [rewrite Hfinal; reflexivity |].
  split; [rewrite Hfinal, Hb; field; lra |].
  split; [exact Hpaid |].
  assert (Hacc :
    AmortizationMilestone.principalPaid final + AmortizationMilestone.interestPaid final
    = INR (Z.to_nat (t * 12))
      * calculateMonthlyPIRepayment loanAmount annualInterestRate (IZR t)).
  { rewrite Hfinal; unfold milestoneAt, snapshot.
    cbn [AmortizationMilestone.principalPaid AmortizationMilestone.interestPaid].
    apply walk_accounts. }
  unfold calculateTotalInterestPI; rewrite Hn in Hacc; lra.
Qed.

(** X8. On a loan of ordinary size whose term is itself one of the requested
    years, the last milestone is the end of the loan: its year is the term
    and, to within a millionth of the loan amount, the remaining balance is
    0, the principal paid is the loan amount and the interest paid is the
    total that [calculateTotalInterestPI] reports. *)
Theorem schedule_pays_off_at_term
    (loanAmount annualInterestRate : R) (t : Z) (d : AmortizationMilestone.t) :
  ordinaryLoan loanAmount annualInterestRate (IZR t) ->
  In t [1; 5; 10; 15; 20; 25; 30]%Z ->
  let final :=
    last (calculateAmortizationMilestones loanAmount annualInterestRate (IZR t)) d in
  AmortizationMilestone.year final = IZR t /\
  0 <= AmortizationMilestone.remainingBalance final <= loanAmount / 1000000 /\
  Rabs (AmortizationMilestone.principalPaid final - loanAmount)
  <= loanAmount / 1000000 /\
  Rabs (AmortizationMilestone.interestPaid final
        - calculateTotalInterestPI loanAmount annualInterestRate (IZR t))
  <= loanAmount / 1000000.
Proof.
  intros [[HL1 _] [[Ha1 _] _]] Hin final.
  assert (HL : 0 < loanAmount) by lra.
  assert (Ha : 0 < annualInterestRate) by lra.
  destruct (schedule_pays_off_exact loanAmount annualInterestRate t d HL Ha Hin)
    as [Hyear [Hbal [Hpaid Hint]]].
  fold final in Hyear, Hbal, Hpaid, Hint.
  rewrite Hbal, Hpaid, Hint, !Rminus_diag, Rabs_R0.
  repeat split; lra.
Qed.

Lemma schedule_pays_off_at_term_witness :
  AmortizationMilestone.year
    (last (calculateAmortizationMilestones 480000 (6 / 100) 30)
          (AmortizationMilestone.mk 0 0 0 0)) = 30.
Proof.
  apply (schedule_pays_off_at_term 480000 (6 / 100) 30
           (AmortizationMilestone.mk 0 0 0 0)).
  - unfold ordinaryLoan; lra.
  - simpl; tauto.
Defined.

(** ** Tax calculator: the cap of the tax benefit *)

(** X10. Under non-negative rates no scenario has a negative total tax, so
    the tax benefit never exceeds the tax payable without the property; once
    the rental loss wipes out the taxable income the benefit is exactly that
    tax and a larger loss adds nothing. *)
Theorem taxBenefit_capped_by_tax_without_property
    (baseTaxableIncome netRentalResult netCashflowPreTax
     marginalTaxRate medicareLevyRate : R) :
  0 <= marginalTaxRate -> 0 <= medicareLevyRate ->
  let r := calculateTaxImpactResults baseTaxableIncome netRentalResult
             netCashflowPreTax marginalTaxRate medicareLevyRate in
  0 <= TaxScenarioResults.totalTax (TaxImpactResults.withProperty r) /\
  TaxImpactResults.taxBenefit r
    <= TaxScenarioResults.totalTax (TaxImpactResults.withoutProperty r) /\
  (baseTaxableIncome + netRentalResult <= 0 ->
   TaxScenarioResults.totalTax (TaxImpactResults.withProperty r) = 0 /\
   TaxImpactResults.taxBenefit r
     = TaxScenarioResults.totalTax (TaxImpactResults.withoutProperty r)).
Proof.
  intros Hm Hl r; subst r; unfold calculateTaxImpactResults, calculateTaxBenefit.
  cbn [TaxImpactResults.taxBenefit TaxImpactResults.withProperty
       TaxImpactResults.withoutProperty].
  rewrite !totalTax_scenario.
  pose proof (Math_max_floor_nonneg (baseTaxableIncome + netRentalResult)) as Hw.
  assert (Hwt : 0 <= Math_max 0 (baseTaxableIncome + netRentalResult)
                     * (marginalTaxRate + medicareLevyRate))
    by (apply Rmult_le_pos; lra).
  split; [exact Hwt |].
  split; [lra |].
  intros Hloss; rewrite (Math_max_floor_neg _ Hloss); split; ring.
Qed.

Lemma taxBenefit_capped_by_tax_without_property_witness :
  TaxImpactResults.taxBenefit
    (calculateTaxImpactResults 10000 (-20800) (-8300) (16 / 100) (2 / 100))
  = TaxScenarioResults.totalTax
      (TaxImpactResults.withoutProperty
         (calculateTaxImpactResults 10000 (-20800) (-8300) (16 / 100) (2 / 100))).
Proof.
  apply (taxBenefit_capped_by_tax_without_property
           10000 (-20800) (-8300) (16 / 100) (2 / 100)); lra.
Defined.

(** ** The calculation pipeline of [usePropertyModel] *)

Lemma pipeline_netCashflowPreTax (inputs : PropertyModelInputs.t) :
  CashflowResults.netCashflowPreTax
    (PropertyModelResults.cashflow (usePropertyModel_results inputs))
  = ((52 - RentalIncomeInputs.vacancyWeeksPerYear (PropertyModelInputs.rentalIncome inputs))
     * RentalIncomeInputs.weeklyRent (PropertyModelInputs.rentalIncome inputs)
     - (OperatingExpensesInputs.propertyManagement (PropertyModelInputs.operatingExpenses inputs)
        + OperatingExpensesInputs.councilRates (PropertyModelInputs.operatingExpenses inputs)
        + OperatingExpensesInputs.waterRates (PropertyModelInputs.operatingExpenses inputs)
        + OperatingExpensesInputs.insurance (PropertyModelInputs.operatingExpenses inputs)
        + OperatingExpensesInputs.repairsMaintenance (PropertyModelInputs.operatingExpenses inputs)
        + OperatingExpensesInputs.bodyCorporate (PropertyModelInputs.operatingExpenses inputs)
        + OperatingExpensesInputs.otherExpenses (PropertyModelInputs.operatingExpenses inputs))
     - PropertyPurchaseInputs.loanAmount (PropertyModelInputs.propertyPurchase inputs)
       * PropertyPurchaseInputs.interestRate (PropertyModelInputs.propertyPurchase inputs))
    * (PersonalInputs.ownershipPercentage (PropertyModelInputs.personal inputs) / 100).
Proof.
  unfold usePropertyModel_results, calculateCashflowResults, calculateNetCashflowPreTax,
    calculateGrossRent, calculateTotalOperatingExpenses, calculateInterestExpense,
    WEEKS_PER_YEAR.
  cbn [PropertyModelResults.cashflow CashflowResults.netCashflowPreTax]; ring.
Qed.

Lemma pipeline_totalDepreciation (inputs : PropertyModelInputs.t) :
  DepreciationResults.totalDepreciation
    (PropertyModelResults.depreciation (usePropertyModel_results inputs))
  = (DepreciationInputs.constructionValue (PropertyModelInputs.depreciation inputs) * (25 / 1000)
     + DepreciationInputs.plantEquipmentAnnual (PropertyModelInputs.depreciation inputs))
    * (PersonalInputs.ownershipPercentage (PropertyModelInputs.personal inputs) / 100).
Proof.
  unfold usePropertyModel_results, calculateDepreciationResults,
    calculateTotalDepreciation, calculateCapitalWorksDeduction,
    calculatePlantEquipmentDeduction, CAPITAL_WORKS_RATE.
  cbn [PropertyModelResults.depreciation DepreciationResults.totalDepreciation]; ring.
Qed.

Lemma pipeline_netRentalResult (inputs : PropertyModelInputs.t) :
  RentalPLResults.netRentalResult
    (PropertyModelResults.rentalPL (usePropertyModel_results inputs))
  = CashflowResults.netCashflowPreTax
      (PropertyModelResults.cashflow (usePropertyModel_results inputs))
    - DepreciationResults.totalDepreciation
        (PropertyModelResults.depreciation (usePropertyModel_results inputs)).
Proof. reflexivity. Qed.

Lemma pipeline_taxImpact (inputs : PropertyModelInputs.t) :
  PropertyModelResults.taxImpact (usePropertyModel_results inputs)
  = calculateTaxImpactResults
      (PersonalInputs.baseTaxableIncome (PropertyModelInputs.personal inputs))
      (RentalPLResults.netRentalResult
         (PropertyModelResults.rentalPL (usePropertyModel_results inputs)))
      (CashflowResults.netCashflowPreTax
         (PropertyModelResults.cashflow (usePropertyModel_results inputs)))
      (PersonalInputs.marginalTaxRate (PropertyModelInputs.personal inputs))
      (PersonalInputs.medicareLevyRate (PropertyModelInputs.personal inputs)).
Proof. reflexivity. Qed.

Lemma pipeline_isNegativelyGeared (inputs : PropertyModelInputs.t) :
  RentalPLResults.isNegativelyGeared
    (PropertyModelResults.rentalPL (usePropertyModel_results inputs))
  = num_lt (RentalPLResults.netRentalResult
              (PropertyModelResults.rentalPL (usePropertyModel_results inputs))) 0.
Proof. reflexivity. Qed.

(** X11. Depreciation is a deduction, not a cash cost: replacing the
    depreciation inputs by larger ones leaves the cashflow results
    untouched and, under non-negative rates and ownership, never lowers the
    after-tax cashflow. *)
Theorem more_depreciation_never_lowers_after_tax_cashflow
    (inputs : PropertyModelInputs.t) (more : DepreciationInputs.t) :
  0 <= PersonalInputs.ownershipPercentage (PropertyModelInputs.personal inputs) ->
  0 <= PersonalInputs.marginalTaxRate (PropertyModelInputs.personal inputs) ->
  0 <= PersonalInputs.medicareLevyRate (PropertyModelInputs.personal inputs) ->
  DepreciationInputs.constructionValue (PropertyModelInputs.depreciation inputs)
    <= DepreciationInputs.constructionValue more ->
  DepreciationInputs.plantEquipmentAnnual (PropertyModelInputs.depreciation inputs)
    <= DepreciationInputs.plantEquipmentAnnual more ->
  let inputs' :=
    {| PropertyModelInputs.personal := PropertyModelInputs.personal inputs;
       PropertyModelInputs.propertyPurchase := PropertyModelInputs.propertyPurchase inputs;
       PropertyModelInputs.rentalIncome := PropertyModelInputs.rentalIncome inputs;
       PropertyModelInputs.operatingExpenses := PropertyModelInputs.operatingExpenses inputs;
       PropertyModelInputs.depreciation := more |} in
  PropertyModelResults.cashflow (usePropertyModel_results inputs')
    = PropertyModelResults.cashflow (usePropertyModel_results inputs) /\
  TaxImpactResults.afterTaxCashflow
    (PropertyModelResults.taxImpact (usePropertyModel_results inputs))
  <= TaxImpactResults.afterTaxCashflow
       (PropertyModelResults.taxImpact (usePropertyModel_results inputs')).
Proof.
  intros Ho Hm Hl Hcv Hpe inputs'.
  split; [reflexivity |].
  rewrite !pipeline_taxImpact.
  unfold calculateTaxImpactResults, calculateTaxBenefit.
  cbn [TaxImpactResults.afterTaxCashflow].
  rewrite !pipeline_netRentalResult.
  assert (Hcash :
    CashflowResults.netCashflowPreTax
      (PropertyModelResults.cashflow (usePropertyModel_results inputs'))
    = CashflowResults.netCashflowPreTax
        (PropertyModelResults.cashflow (usePropertyModel_results inputs)))
    by reflexivity.
  rewrite Hcash.
  assert (Hdep :
    DepreciationResults.totalDepreciation
      (PropertyModelResults.depreciation (usePropertyModel_results inputs))
    <= DepreciationResults.totalDepreciation
         (PropertyModelResults.depreciation (usePropertyModel_results inputs'))).
  { rewrite !pipeline_totalDepreciation; subst inputs'.
    cbn [PropertyModelInputs.depreciation PropertyModelInputs.personal].
    apply Rmult_le_compat_r; lra. }
  assert (Hbase :
    PersonalInputs.baseTaxableIncome (PropertyModelInputs.personal inputs')
    = PersonalInputs.baseTaxableIncome (PropertyModelInputs.personal inputs))
    by reflexivity.
  assert (Hm' :
    PersonalInputs.marginalTaxRate (PropertyModelInputs.personal inputs')
    = PersonalInputs.marginalTaxRate (PropertyModelInputs.personal inputs))
    by reflexivity.
  assert (Hl' :
    PersonalInputs.medicareLevyRate (PropertyModelInputs.personal inputs')
    = PersonalInputs.medicareLevyRate (PropertyModelInputs.personal inputs))
    by reflexivity.
  rewrite Hbase, Hm', Hl'.
  match goal with
  | |- _ + (_ - TaxScenarioResults.totalTax (calculateTaxScenario ?x _ _))
       <= _ + (_ - TaxScenarioResults.totalTax (calculateTaxScenario ?y _ _)) =>
      pose proof (totalTax_scenario_mono y x _ _ Hm Hl) as Hmono
  end.
  lra.
Qed.

Lemma more_depreciation_never_lowers_after_tax_cashflow_witness :
  TaxImpactResults.afterTaxCashflow
    (PropertyModelResults.taxImpact (usePropertyModel_results (DEFAULT_INPUTS EmptyString)))
  <= TaxImpactResults.afterTaxCashflow
       (PropertyModelResults.taxImpact
          (usePropertyModel_results
             (PropertyModelInputs.mk
                (PropertyModelInputs.personal (DEFAULT_INPUTS EmptyString))
                (PropertyModelInputs.propertyPurchase (DEFAULT_INPUTS EmptyString))
                (PropertyModelInputs.rentalIncome (DEFAULT_INPUTS EmptyString))
                (PropertyModelInputs.operatingExpenses (DEFAULT_INPUTS EmptyString))
                (DepreciationInputs.mk 400000 6000)))).
Proof.
  apply (more_depreciation_never_lowers_after_tax_cashflow (DEFAULT_INPUTS EmptyString)
           (DepreciationInputs.mk 400000 6000)); simpl; lra.
Defined.

(** X12. With an ownership of zero percent the pipeline reports nothing:
    cashflow and depreciation are 0, the property is not negatively geared,
    and both scenarios coincide, so the tax benefit and the after-tax
    cashflow are 0. *)
Theorem pipeline_at_zero_ownership (inputs : PropertyModelInputs.t) :
  PersonalInputs.ownershipPercentage (PropertyModelInputs.personal inputs) = 0 ->
  let r := usePropertyModel_results inputs in
  CashflowResults.grossRentalIncome (PropertyModelResults.cashflow r) = 0 /\
  CashflowResults.netCashflowPreTax (PropertyModelResults.cashflow r) = 0 /\
  DepreciationResults.totalDepreciation (PropertyModelResults.depreciation r) = 0 /\
  RentalPLResults.netRentalResult (PropertyModelResults.rentalPL r) = 0 /\
  RentalPLResults.isNegativelyGeared (PropertyModelResults.rentalPL r) = false /\
  TaxImpactResults.withProperty (PropertyModelResults.taxImpact r)
    = TaxImpactResults.withoutProperty (PropertyModelResults.taxImpact r) /\
  TaxImpactResults.taxBenefit (PropertyModelResults.taxImpact r) = 0 /\
  TaxImpactResults.afterTaxCashflow (PropertyModelResults.taxImpact r) = 0.
Proof.
  intros Ho r; subst r.
  assert (Hcash : CashflowResults.netCashflowPreTax
                    (PropertyModelResults.cashflow (usePropertyModel_results inputs)) = 0)
    by (rewrite pipeline_netCashflowPreTax, Ho; lra).
  assert (Hdep : DepreciationResults.totalDepreciation
                   (PropertyModelResults.depreciation (usePropertyModel_results inputs)) = 0)
    by (rewrite pipeline_totalDepreciation, Ho; lra).
  assert (Hnet : RentalPLResults.netRentalResult
                   (PropertyModelResults.rentalPL (usePropertyModel_results inputs)) = 0)
    by (rewrite pipeline_netRentalResult, Hcash, Hdep; lra).
  assert (Hgross : CashflowResults.grossRentalIncome
                     (PropertyModelResults.cashflow (usePropertyModel_results inputs)) = 0).
  { unfold usePropertyModel_results, calculateCashflowResults, calculateGrossRent.
    cbn [PropertyModelResults.cashflow CashflowResults.grossRentalIncome].
    rewrite Ho; lra. }
  split; [exact Hgross |].
  split; [exact Hcash |].
  split; [exact Hdep |].
  split; [exact Hnet |].
  split; [rewrite pipeline_isNegativelyGeared, Hnet; apply num_lt_false; lra |].
  rewrite pipeline_taxImpact, Hnet, Hcash.
  unfold calculateTaxImpactResults, calculateTaxBenefit.
  cbn [TaxImpactResults.withProperty TaxImpactResults.withoutProperty
       TaxImpactResults.taxBenefit TaxImpactResults.afterTaxCashflow].
  rewrite Rplus_0_r.
  repeat split; lra.
Qed.

Lemma pipeline_at_zero_ownership_witness :
  TaxImpactResults.afterTaxCashflow
    (PropertyModelResults.taxImpact
       (usePropertyModel_results
          (PropertyModelInputs.mk
             (PersonalInputs.mk 100000 0 (37 / 100) (2 / 100))
             (PropertyModelInputs.propertyPurchase (DEFAULT_INPUTS EmptyString))
             (PropertyModelInputs.rentalIncome (DEFAULT_INPUTS EmptyString))
             (PropertyModelInputs.operatingExpenses (DEFAULT_INPUTS EmptyString))
             (PropertyModelInputs.depreciation (DEFAULT_INPUTS EmptyString))))) = 0.
Proof.
  apply (pipeline_at_zero_ownership
           (PropertyModelInputs.mk
              (PersonalInputs.mk 100000 0 (37 / 100) (2 / 100))
              (PropertyModelInputs.propertyPurchase (DEFAULT_INPUTS EmptyString))
              (PropertyModelInputs.rentalIncome (DEFAULT_INPUTS EmptyString))
              (PropertyModelInputs.operatingExpenses (DEFAULT_INPUTS EmptyString))
              (PropertyModelInputs.depreciation (DEFAULT_INPUTS EmptyString)))).
  reflexivity.
Defined.

(** ** Validation and warnings of [usePropertyModel] *)

Lemma zodMin_nil (key : string) (lo : R) (msg : string) (v : R) :
  zodMin key lo msg v = [] <-> lo <= v.
Proof.
  unfold zodMin; destruct (num_lt v lo) eqn:E.
  - apply num_lt_true in E; split; [discriminate | lra].
  - apply num_lt_false in E; split; [intros _; exact E | reflexivity].
Qed.

Lemma zodMax_nil (key : string) (hi : R) (msg : string) (v : R) :
  zodMax key hi msg v = [] <-> v <= hi.
Proof.
  unfold zodMax; destruct (num_lt hi v) eqn:E.
  - apply num_lt_true in E; split; [discriminate | lra].
  - apply num_lt_false in E; split; [intros _; exact E | reflexivity].
Qed.

Lemma zodNested_nil (key : string) (issues : list ZodIssue) :
  zodNested key issues = [] <-> issues = [].
Proof.
  unfold zodNested; destruct issues; split; intros H;
    try reflexivity; discriminate H.
Qed.

Lemma app_nil_iff {A : Type} (l l' : list A) :
  l ++ l' = [] <-> l = [] /\ l' = [].
Proof.
  split; [apply app_eq_nil | intros [-> ->]; reflexivity].
Qed.

Lemma propertyModelSchema_accepts (inputs : PropertyModelInputs.t) :
  propertyModelSchema inputs = [] <-> withinValidationLimits inputs.
Proof.
  unfold propertyModelSchema, personalSchema, propertyPurchaseSchema,
    rentalIncomeSchema, operatingExpensesSchema, depreciationSchema,
    withinValidationLimits.
  cbv zeta.
  rewrite !app_nil_iff, !zodNested_nil, !app_nil_iff, !zodMin_nil, !zodMax_nil.
  unfold VALIDATION_LIMITS.MIN_OWNERSHIP_PCT, VALIDATION_LIMITS.MAX_OWNERSHIP_PCT,
    VALIDATION_LIMITS.MIN_MARGINAL_RATE, VALIDATION_LIMITS.MAX_MARGINAL_RATE,
    VALIDATION_LIMITS.MIN_MEDICARE_RATE, VALIDATION_LIMITS.MAX_MEDICARE_RATE,
    VALIDATION_LIMITS.MIN_INTEREST_RATE, VALIDATION_LIMITS.MAX_INTEREST_RATE,
    VALIDATION_LIMITS.MIN_LOAN_TERM, VALIDATION_LIMITS.MAX_LOAN_TERM,
    VALIDATION_LIMITS.MIN_WEEKLY_RENT, VALIDATION_LIMITS.MAX_WEEKLY_RENT,
    VALIDATION_LIMITS.MIN_VACANCY_WEEKS, VALIDATION_LIMITS.MAX_VACANCY_WEEKS.
  tauto.
Qed.

Lemma validateInputs_isValid (inputs : PropertyModelInputs.t) :
  ValidationState.isValid (validateInputs inputs) = true
  <-> withinValidationLimits inputs.
Proof.
  unfold validateInputs; cbn [ValidationState.isValid].
  rewrite Nat.eqb_eq, length_map, length_zero_iff_nil.
  apply propertyModelSchema_accepts.
Qed.

(** X15. [validateInputs] reports the inputs as valid exactly when every
    number lies in the range its schema declares (bounds included); the two
    purchase-price warnings play no part in validity: a loan above the
    purchase price is warned about and still valid. *)
Theorem validateInputs_valid_iff_within_limits :
  (forall inputs : PropertyModelInputs.t,
     (ValidationState.isValid (validateInputs inputs) = true
      <-> withinValidationLimits inputs) /\
     (ValidationState.isValid (validateInputs inputs) = true
      <-> ValidationState.errors (validateInputs inputs) = []) /\
     (In "propertyPurchase.loanAmount"%string
         (map ValidationWarning.field (ValidationState.warnings (validateInputs inputs)))
      <-> PropertyPurchaseInputs.purchasePrice (PropertyModelInputs.propertyPurchase inputs)
          < PropertyPurchaseInputs.loanAmount (PropertyModelInputs.propertyPurchase inputs)) /\
     (In "depreciation.constructionValue"%string
         (map ValidationWarning.field (ValidationState.warnings (validateInputs inputs)))
      <-> PropertyPurchaseInputs.purchasePrice (PropertyModelInputs.propertyPurchase inputs)
          < DepreciationInputs.constructionValue (PropertyModelInputs.depreciation inputs))).
Proof.
  intros inputs.
  split; [apply validateInputs_isValid |].
  split.
  { unfold validateInputs; cbn [ValidationState.isValid ValidationState.errors].
    rewrite Nat.eqb_eq; apply length_zero_iff_nil. }
  unfold validateInputs; cbn [ValidationState.warnings].
  set (price := PropertyPurchaseInputs.purchasePrice (PropertyModelInputs.propertyPurchase inputs)).
  set (loan := PropertyPurchaseInputs.loanAmount (PropertyModelInputs.propertyPurchase inputs)).
  set (cv := DepreciationInputs.constructionValue (PropertyModelInputs.depreciation inputs)).
  destruct (num_lt price loan) eqn:El; destruct (num_lt price cv) eqn:Ec;
    try apply num_lt_true in El; try apply num_lt_false in El;
    try apply num_lt_true in Ec; try apply num_lt_false in Ec;
    cbn [app map In ValidationWarning.field];
    split; split; intros H;
    repeat match goal with
           | H : _ \/ _ |- _ => destruct H as [H | H]
           | H : False |- _ => destruct H
           end;
    try discriminate; try lra; auto.
Qed.

Lemma validateInputs_valid_iff_within_limits_witness :
  ValidationState.isValid (validateInputs (DEFAULT_INPUTS EmptyString)) = true.
Proof.
  apply (proj1 (validateInputs_valid_iff_within_limits (DEFAULT_INPUTS EmptyString))).
  unfold withinValidationLimits, DEFAULT_INPUTS; simpl.
  repeat split; lra.
Defined.

(** X16. For inputs that [validateInputs] accepts, with a positive loan and
    rate, the amortization schedule shown for them has one milestone for
    each requested year that does not exceed the term, in the order of the
    requested years, and so starts with the milestone of year 1. *)
Theorem validated_loan_schedule_years (inputs : PropertyModelInputs.t) :
  ValidationState.isValid (validateInputs inputs) = true ->
  let purchase := PropertyModelInputs.propertyPurchase inputs in
  let loanAmount := PropertyPurchaseInputs.loanAmount purchase in
  let interestRate := PropertyPurchaseInputs.interestRate purchase in
  let loanTermYears := PropertyPurchaseInputs.loanTermYears purchase in
  let ms := calculateAmortizationMilestones loanAmount interestRate loanTermYears in
  0 < loanAmount -> 0 < interestRate ->
  map AmortizationMilestone.year ms
  = filter (fun y => num_le y loanTermYears) requestedMilestoneYears /\
  exists first rest, ms = first :: rest /\ AmortizationMilestone.year first = 1.
Proof.
  intros Hvalid purchase loanAmount interestRate loanTermYears ms HL0 Ha0.
  apply validateInputs_isValid in Hvalid.
  destruct Hvalid as [_ [[_ [HL [[Ha _] [HT _]]]] _]].
  fold purchase in HL, Ha, HT; fold loanAmount in HL; fold interestRate in Ha;
    fold loanTermYears in HT.
  subst ms; rewrite calculateAmortizationMilestones_walk by lra.
  split.
  - rewrite requestedMilestoneYears_integers, filter_map_commute, map_map.
    apply map_ext; intros k; reflexivity.
  - unfold requestedYears; cbn [filter].
    rewrite (proj2 (num_le_true 1 loanTermYears)) by exact HT.
    cbn [map]; eexists; eexists; split; reflexivity.
Qed.

Lemma validated_loan_schedule_years_witness :
  map AmortizationMilestone.year (calculateAmortizationMilestones 480000 (6 / 100) 30)
  = filter (fun y => num_le y 30) requestedMilestoneYears.
Proof.
  apply (validated_loan_schedule_years (DEFAULT_INPUTS EmptyString)).
  - apply validateInputs_isValid.
    unfold withinValidationLimits, DEFAULT_INPUTS; simpl.
    repeat split; lra.
  - simpl; lra.
  - simpl; lra.
Defined.

(** X17. On the results of the pipeline, [generateWarnings] raises the
    high-gearing warning exactly when there is a rental loss larger than
    half the base income, so never for a property that is not negatively
    geared; it raises the no-depreciation warning exactly when the total
    depreciation is 0, which for non-negative depreciation inputs and
    ownership means no depreciation was entered or the ownership is 0. *)
Theorem generateWarnings_on_pipeline (inputs : PropertyModelInputs.t) :
  let r := usePropertyModel_results inputs in
  let fields := map ValidationWarning.field (generateWarnings inputs r) in
  let loss := - RentalPLResults.netRentalResult (PropertyModelResults.rentalPL r) in
  (In "rentalPL.netRentalResult"%string fields
   <-> 0 < loss /\
       PersonalInputs.baseTaxableIncome (PropertyModelInputs.personal inputs) * (5 / 10)
       < loss) /\
  (RentalPLResults.isNegativelyGeared (PropertyModelResults.rentalPL r) = false ->
   ~ In "rentalPL.netRentalResult"%string fields) /\
  (In "depreciation"%string fields
   <-> DepreciationResults.totalDepreciation (PropertyModelResults.depreciation r) = 0) /\
  (0 <= PersonalInputs.ownershipPercentage (PropertyModelInputs.personal inputs) ->
   0 <= DepreciationInputs.constructionValue (PropertyModelInputs.depreciation inputs) ->
   0 <= DepreciationInputs.plantEquipmentAnnual (PropertyModelInputs.depreciation inputs) ->
   (In "depreciation"%string fields
    <-> PersonalInputs.ownershipPercentage (PropertyModelInputs.personal inputs) = 0
        \/ (DepreciationInputs.constructionValue (PropertyModelInputs.depreciation inputs) = 0
            /\ DepreciationInputs.plantEquipmentAnnual
                 (PropertyModelInputs.depreciation inputs) = 0))).
Proof.
  intros r fields loss.
  assert (Hgear :
    In "rentalPL.netRentalResult"%string fields
    <-> 0 < loss /\
        PersonalInputs.baseTaxableIncome (PropertyModelInputs.personal inputs) * (5 / 10)
        < loss).
  { subst fields loss; unfold generateWarnings.
    set (n := RentalPLResults.netRentalResult (PropertyModelResults.rentalPL r)).
    set (b := PersonalInputs.baseTaxableIncome (PropertyModelInputs.personal inputs)).
    set (d := DepreciationResults.totalDepreciation (PropertyModelResults.depreciation r)).
    destruct (num_lt n 0) eqn:En;
      [apply num_lt_true in En; rewrite (Rabs_left n En);
       destruct (num_lt (b * (5 / 10)) (- n)) eqn:Eb;
       [apply num_lt_true in Eb | apply num_lt_false in Eb]
      | apply num_lt_false in En];
      destruct (num_eq d 0);
      cbn [app map In ValidationWarning.field];
      split; intros H;
      repeat match goal with
             | H : _ \/ _ |- _ => destruct H as [H | H]
             | H : _ /\ _ |- _ => destruct H
             | H : False |- _ => destruct H
             end;
      try discriminate; try lra; auto; try (split; lra). }
  assert (Hdep :
    In "depreciation"%string fields
    <-> DepreciationResults.totalDepreciation (PropertyModelResults.depreciation r) = 0).
  { subst fields; unfold generateWarnings.
    set (n := RentalPLResults.netRentalResult (PropertyModelResults.rentalPL r)).
    set (b := PersonalInputs.baseTaxableIncome (PropertyModelInputs.personal inputs)).
    set (d := DepreciationResults.totalDepreciation (PropertyModelResults.depreciation r)).
    destruct (num_lt n 0); [destruct (num_lt (b * (5 / 10)) (Rabs n)) |];
      (destruct (num_eq d 0) eqn:Ed;
       [apply num_eq_true in Ed | apply num_eq_false in Ed]);
      cbn [app map In ValidationWarning.field];
      split; intros H;
      repeat match goal with
             | H : _ \/ _ |- _ => destruct H as [H | H]
             | H : False |- _ => destruct H
             end;
      try discriminate; try contradiction; auto. }
  split; [exact Hgear |].
  split.
  { intros Hng Hin; apply Hgear in Hin; destruct Hin as [Hloss _].
    subst r loss; rewrite pipeline_isNegativelyGeared in Hng.
    apply num_lt_false in Hng; lra. }
  split; [exact Hdep |].
  intros Ho Hcv Hpe; rewrite Hdep; subst r.
  rewrite pipeline_totalDepreciation.
  set (o := PersonalInputs.ownershipPercentage (PropertyModelInputs.personal inputs)) in *.
  set (cv := DepreciationInputs.constructionValue (PropertyModelInputs.depreciation inputs)) in *.
  set (pe := DepreciationInputs.plantEquipmentAnnual (PropertyModelInputs.depreciation inputs)) in *.
  split.
  - intros H.
    destruct (Req_dec_T o 0) as [Ho0 | Ho0]; [left; exact Ho0 | right].
    assert (Hsum : cv * (25 / 1000) + pe = 0) by nra.
    split; lra.
  - intros [-> | [-> ->]]; lra.
Qed.

Lemma generateWarnings_on_pipeline_witness :
  ~ In "depreciation"%string
      (map ValidationWarning.field
         (generateWarnings (DEFAULT_INPUTS EmptyString)
            (usePropertyModel_results (DEFAULT_INPUTS EmptyString)))).
Proof.
  intros Hin.
  apply (proj2 (proj2 (proj2 (generateWarnings_on_pipeline (DEFAULT_INPUTS EmptyString))))) in Hin;
    simpl; try lra.
  destruct Hin as [H | [H _]]; simpl in H; lra.
Defined.

(** ** The advice points of [InvestmentAdvice] *)

Lemma in_titles_guarded (c : bool) (p : AdvicePoint) (t : string) :
  In t (map title (if c then [p] else [])) <-> c = true /\ title p = t.
Proof.
  destruct c; cbn [map In]; split.
  - intros [H | []]; split; [reflexivity | exact H].
  - intros [_ H]; left; exact H.
  - intros [].
  - intros [H _]; discriminate H.
Qed.

Lemma advicePoints_titles
    (taxImpact : TaxImpactResults.t) (rentalPL : RentalPLResults.t)
    (marginalTaxRate loanAmount purchasePrice : R) (isInterestOnly : bool) (t : string) :
  In t (map title (advicePoints taxImpact rentalPL marginalTaxRate
                     loanAmount purchasePrice isInterestOnly))
  <->
  (RentalPLResults.isNegativelyGeared rentalPL = true
   /\ 0 < TaxImpactResults.taxBenefit taxImpact
   /\ "Negatively Geared Property"%string = t)
  \/ (RentalPLResults.isNegativelyGeared rentalPL = false
      /\ "Positively Geared Property"%string = t)
  \/ (TaxImpactResults.afterTaxCashflow taxImpact < 0
      /\ "Out-of-Pocket Contribution Required"%string = t)
  \/ (0 <= TaxImpactResults.afterTaxCashflow taxImpact
      /\ "Positive After-Tax Cashflow"%string = t)
  \/ (lvrAbove80 loanAmount purchasePrice = true
      /\ "High Loan-to-Value Ratio"%string = t)
  \/ (isInterestOnly = true /\ "Interest-Only Loan Structure"%string = t)
  \/ (37 <= marginalTaxRate /\ RentalPLResults.isNegativelyGeared rentalPL = true
      /\ "Tax Bracket Advantage"%string = t).
Proof.
  unfold advicePoints; cbv zeta.
  rewrite !map_app, !in_app_iff, !in_titles_guarded.
  cbn [title].
  rewrite andb_true_iff, num_le_true.
  assert (H1 :
    In t (map title
            (if RentalPLResults.isNegativelyGeared rentalPL
             then if num_lt 0 (TaxImpactResults.taxBenefit taxImpact)
                  then [ {| title := "Negatively Geared Property"; type := neutral |} ]
                  else []
             else [ {| title := "Positively Geared Property"; type := positive |} ]))
    <-> (RentalPLResults.isNegativelyGeared rentalPL = true
         /\ 0 < TaxImpactResults.taxBenefit taxImpact
         /\ "Negatively Geared Property"%string = t)
        \/ (RentalPLResults.isNegativelyGeared rentalPL = false
            /\ "Positively Geared Property"%string = t)).
  { destruct (RentalPLResults.isNegativelyGeared rentalPL).
    - rewrite in_titles_guarded, num_lt_true; cbn [title].
      split; [intros [Hb Ht]; left; auto | intros [[_ H] | [H _]]; [exact H | discriminate H]].
    - cbn [map In title].
      split; [intros [H | []]; right; auto | intros [[H _] | [_ H]]; [discriminate H | left; exact H]]. }
  assert (H2 :
    In t (map title
            (if num_lt (TaxImpactResults.afterTaxCashflow taxImpact) 0
             then [ {| title := "Out-of-Pocket Contribution Required"; type := warning |} ]
             else [ {| title := "Positive After-Tax Cashflow"; type := positive |} ]))
    <-> (TaxImpactResults.afterTaxCashflow taxImpact < 0
         /\ "Out-of-Pocket Contribution Required"%string = t)
        \/ (0 <= TaxImpactResults.afterTaxCashflow taxImpact
            /\ "Positive After-Tax Cashflow"%string = t)).
  { destruct (num_lt (TaxImpactResults.afterTaxCashflow taxImpact) 0) eqn:E;
      [apply num_lt_true in E | apply num_lt_false in E]; cbn [map In title].
    - split; [intros [H | []]; left; auto | intros [[_ H] | [Hc _]]; [left; exact H | lra]].
    - split; [intros [H | []]; right; auto | intros [[Hc _] | [_ H]]; [lra | left; exact H]]. }
  rewrite H1, H2; tauto.
Qed.

(** X18. The "Tax Bracket Advantage" advice needs a marginal rate of at least
    37, and the page passes the rate as a decimal: for inputs that
    [validateInputs] accepts (rate at most 0.47) it is never among the
    advice points. *)
Theorem tax_bracket_advice_never_shown_for_valid_inputs
    (inputs : PropertyModelInputs.t) :
  ValidationState.isValid (validateInputs inputs) = true ->
  let r := usePropertyModel_results inputs in
  ~ In "Tax Bracket Advantage"%string
       (map title
          (advicePoints
             (PropertyModelResults.taxImpact r) (PropertyModelResults.rentalPL r)
             (PersonalInputs.marginalTaxRate (PropertyModelInputs.personal inputs))
             (PropertyPurchaseInputs.loanAmount (PropertyModelInputs.propertyPurchase inputs))
             (PropertyPurchaseInputs.purchasePrice (PropertyModelInputs.propertyPurchase inputs))
             (PropertyPurchaseInputs.isInterestOnly
                (PropertyModelInputs.propertyPurchase inputs)))).
Proof.
  intros Hvalid r Hin.
  apply validateInputs_isValid in Hvalid.
  destruct Hvalid as [[_ [_ [[_ Hrate] _]]] _].
  apply advicePoints_titles in Hin.
  destruct Hin as [[_ [_ H]] | [[_ H] | [[_ H] | [[_ H] | [[_ H] | [[_ H] | [H37 _]]]]]]];
    try discriminate H.
  lra.
Qed.

Lemma tax_bracket_advice_never_shown_for_valid_inputs_witness :
  ~ In "Tax Bracket Advantage"%string
       (map title
          (advicePoints
             (PropertyModelResults.taxImpact
                (usePropertyModel_results (DEFAULT_INPUTS EmptyString)))
             (PropertyModelResults.rentalPL
                (usePropertyModel_results (DEFAULT_INPUTS EmptyString)))
             (37 / 100) 480000 600000 true)).
Proof.
  apply (tax_bracket_advice_never_shown_for_valid_inputs (DEFAULT_INPUTS EmptyString)).
  apply validateInputs_isValid.
  unfold withinValidationLimits, DEFAULT_INPUTS; simpl.
  repeat split; lra.
Defined.

(** X19. Whatever the results, the advice always holds exactly one of the
    two after-tax cashflow points: the out-of-pocket warning when the
    after-tax cashflow is negative, the positive-cashflow point otherwise;
    there are between one and five points in all. *)
Theorem advice_always_reports_after_tax_cashflow
    (taxImpact : TaxImpactResults.t) (rentalPL : RentalPLResults.t)
    (marginalTaxRate loanAmount purchasePrice : R) (isInterestOnly : bool) :
  let points := advicePoints taxImpact rentalPL marginalTaxRate
                  loanAmount purchasePrice isInterestOnly in
  (In "Out-of-Pocket Contribution Required"%string (map title points)
   <-> TaxImpactResults.afterTaxCashflow taxImpact < 0) /\
  (In "Positive After-Tax Cashflow"%string (map title points)
   <-> 0 <= TaxImpactResults.afterTaxCashflow taxImpact) /\
  (1 <= List.length points <= 5)%nat.
Proof.
  intros points; subst points.
  split; [| split].
  - rewrite advicePoints_titles; split.
    + intros [[_ [_ H]] | [[_ H] | [[Hc _] | [[_ H] | [[_ H] | [[_ H] | [_ [_ H]]]]]]]];
        try discriminate H; exact Hc.
    + intros Hc; right; right; left; split; [exact Hc | reflexivity].
  - rewrite advicePoints_titles; split.
    + intros [[_ [_ H]] | [[_ H] | [[_ H] | [[Hc _] | [[_ H] | [[_ H] | [_ [_ H]]]]]]]];
        try discriminate H; exact Hc.
    + intros Hc; right; right; right; left; split; [exact Hc | reflexivity].
  - unfold advicePoints; cbv zeta; rewrite !length_app.
    destruct (RentalPLResults.isNegativelyGeared rentalPL);
      destruct (num_lt 0 (TaxImpactResults.taxBenefit taxImpact));
      destruct (num_lt (TaxImpactResults.afterTaxCashflow taxImpact) 0);
      destruct (lvrAbove80 loanAmount purchasePrice);
      destruct isInterestOnly;
      destruct (num_le 37 marginalTaxRate);
      cbn [andb List.length]; lia.
Qed.

Lemma advice_always_reports_after_tax_cashflow_witness :
  In "Out-of-Pocket Contribution Required"%string
    (map title
       (advicePoints
          (calculateTaxImpactResults 100000 (-20800) (-8300) (37 / 100) (2 / 100))
          (RentalPLResults.mk (-8300) 12500 (-20800) true)
          (37 / 100) 480000 600000 true)).
Proof.
  apply (proj1 (advice_always_reports_after_tax_cashflow
                  (calculateTaxImpactResults 100000 (-20800) (-8300) (37 / 100) (2 / 100))
                  (RentalPLResults.mk (-8300) 12500 (-20800) true)
                  (37 / 100) 480000 600000 true)).
  unfold calculateTaxImpactResults, calculateTaxBenefit.
  cbn [TaxImpactResults.afterTaxCashflow].
  rewrite !totalTax_scenario.
  rewrite (Math_max_floor_pos 100000) by lra.
  rewrite (Math_max_floor_pos (100000 + -20800)) by lra.
  lra.
Defined.

(** X20. On the results of the pipeline, with no base income to deduct from
    the tax benefit of a negatively geared property is 0, and the advice
    holds neither the "Negatively Geared Property" point nor the
    "Positively Geared Property" point. *)
Theorem no_gearing_advice_without_base_income (inputs : PropertyModelInputs.t) :
  let r := usePropertyModel_results inputs in
  let personal := PropertyModelInputs.personal inputs in
  let titles :=
    map title
      (advicePoints
         (PropertyModelResults.taxImpact r) (PropertyModelResults.rentalPL r)
         (PersonalInputs.marginalTaxRate personal)
         (PropertyPurchaseInputs.loanAmount (PropertyModelInputs.propertyPurchase inputs))
         (PropertyPurchaseInputs.purchasePrice (PropertyModelInputs.propertyPurchase inputs))
         (PropertyPurchaseInputs.isInterestOnly (PropertyModelInputs.propertyPurchase inputs))) in
  PersonalInputs.baseTaxableIncome personal <= 0 ->
  RentalPLResults.isNegativelyGeared (PropertyModelResults.rentalPL r) = true ->
  TaxImpactResults.taxBenefit (PropertyModelResults.taxImpact r) = 0 /\
  ~ In "Negatively Geared Property"%string titles /\
  ~ In "Positively Geared Property"%string titles.
Proof.
  intros r personal titles Hb Hneg.
  assert (Hloss : RentalPLResults.netRentalResult (PropertyModelResults.rentalPL r) < 0).
  { subst r; rewrite pipeline_isNegativelyGeared in Hneg.
    apply num_lt_true in Hneg; exact Hneg. }
  assert (Hbenefit :
    TaxImpactResults.taxBenefit (PropertyModelResults.taxImpact r)
    = (Math_max 0 (PersonalInputs.baseTaxableIncome personal)
       - Math_max 0 (PersonalInputs.baseTaxableIncome personal
                     + RentalPLResults.netRentalResult (PropertyModelResults.rentalPL r)))
      * (PersonalInputs.marginalTaxRate personal
         + PersonalInputs.medicareLevyRate personal)).
  { subst r personal; rewrite pipeline_taxImpact.
    unfold calculateTaxImpactResults, calculateTaxBenefit.
    cbn [TaxImpactResults.taxBenefit].
    rewrite !totalTax_scenario; ring. }
  assert (Hzero : TaxImpactResults.taxBenefit (PropertyModelResults.taxImpact r) = 0).
  { rewrite Hbenefit, (Math_max_floor_neg _ Hb), Math_max_floor_neg by lra; ring. }
  split; [exact Hzero |].
  subst titles; split; intros Hin; apply advicePoints_titles in Hin.
  - destruct Hin as [[_ [Hpos _]] | [[_ H] | [[_ H] | [[_ H] | [[_ H] | [[_ H] | [_ [_ H]]]]]]]];
      try discriminate H.
    rewrite Hzero in Hpos; lra.
  - destruct Hin as [[_ [_ H]] | [[Hf _] | [[_ H] | [[_ H] | [[_ H] | [[_ H] | [_ [_ H]]]]]]]];
      try discriminate H.
    rewrite Hneg in Hf; discriminate Hf.
Qed.

Lemma no_gearing_advice_without_base_income_witness :
  TaxImpactResults.taxBenefit
    (PropertyModelResults.taxImpact
       (usePropertyModel_results
          (PropertyModelInputs.mk
             (PersonalInputs.mk 0 100 (37 / 100) (2 / 100))
             (PropertyModelInputs.propertyPurchase (DEFAULT_INPUTS EmptyString))
             (PropertyModelInputs.rentalIncome (DEFAULT_INPUTS EmptyString))
             (PropertyModelInputs.operatingExpenses (DEFAULT_INPUTS EmptyString))
             (PropertyModelInputs.depreciation (DEFAULT_INPUTS EmptyString))))) = 0.
Proof.
  apply (no_gearing_advice_without_base_income
           (PropertyModelInputs.mk
              (PersonalInputs.mk 0 100 (37 / 100) (2 / 100))
              (PropertyModelInputs.propertyPurchase (DEFAULT_INPUTS EmptyString))
              (PropertyModelInputs.rentalIncome (DEFAULT_INPUTS EmptyString))
              (PropertyModelInputs.operatingExpenses (DEFAULT_INPUTS EmptyString))
              (PropertyModelInputs.depreciation (DEFAULT_INPUTS EmptyString)))).
  - simpl; lra.
  - rewrite pipeline_isNegativelyGeared; apply num_lt_true.
    rewrite pipeline_netRentalResult, pipeline_netCashflowPreTax,
      pipeline_totalDepreciation; simpl; lra.
Defined.

(** ** The charts *)

(** X22. Fed with the results of the pipeline, the net figure shown with the
    cashflow chart is the after-tax cashflow, divided by 12 in the monthly
    view; in the annual view the four bars (rent, expenses, interest, tax
    effect), added in that order, give that figure. *)
Theorem cashflow_chart_net_is_after_tax_cashflow
    (inputs : PropertyModelInputs.t) (viewMode : ViewMode) :
  let r := usePropertyModel_results inputs in
  let cashflow := PropertyModelResults.cashflow r in
  let taxImpact := PropertyModelResults.taxImpact r in
  cashflowChartNet cashflow taxImpact viewMode
  = TaxImpactResults.afterTaxCashflow taxImpact
    / match viewMode with monthly => 12 | annual => 1 end /\
  fold_left (fun sum item => sum + snd item)
    (cashflowChartData cashflow taxImpact annual) 0
  = cashflowChartNet cashflow taxImpact annual.
Proof.
  intros r cashflow taxImpact; subst cashflow taxImpact.
  unfold cashflowChartData, cashflowChartNet; cbv zeta.
  assert (Hnet :
    CashflowResults.netCashflowPreTax (PropertyModelResults.cashflow r)
    = CashflowResults.grossRentalIncome (PropertyModelResults.cashflow r)
      - CashflowResults.totalOperatingExpenses (PropertyModelResults.cashflow r)
      - CashflowResults.interestExpense (PropertyModelResults.cashflow r))
    by reflexivity.
  split.
  - destruct viewMode; reflexivity.
  - cbn [fold_left snd cashflowChartDivisor]; rewrite Hnet; field.
Qed.

(** ** The saved scenarios *)

Lemma getScenario_cons (id : string) (s : SavedScenario.t) (l : list SavedScenario.t) :
  getScenario id (s :: l)
  = if String.eqb (SavedScenario.id s) id then Some s else getScenario id l.
Proof. reflexivity. Qed.

Lemma getScenario_app (id : string) (l l' : list SavedScenario.t) :
  getScenario id (l ++ l')
  = match getScenario id l with
    | Some s => Some s
    | None => getScenario id l'
    end.
Proof.
  induction l as [| s l IH]; [reflexivity |].
  cbn [app]; rewrite !getScenario_cons.
  destruct (String.eqb (SavedScenario.id s) id); [reflexivity | exact IH].
Qed.

Lemma getScenario_found (id : string) (l : list SavedScenario.t) (s : SavedScenario.t) :
  getScenario id l = Some s -> SavedScenario.id s = id /\ In s l.
Proof.
  unfold getScenario; intros H; apply find_some in H.
  destruct H as [Hin Heq]; apply String.eqb_eq in Heq; split; assumption.
Qed.

(** X23. After [deleteScenario id] no scenario is found under [id]; the
    lookup of every other identifier is unchanged, and deleting an
    identifier that is not stored changes nothing. *)
Theorem deleteScenario_removes_only_that_id
    (id : string) (prev : list SavedScenario.t) :
  getScenario id (deleteScenario id prev) = None /\
  (forall other : string, other <> id ->
     getScenario other (deleteScenario id prev) = getScenario other prev) /\
  (getScenario id prev = None -> deleteScenario id prev = prev).
Proof.
  induction prev as [| s prev [IHgone [IHkeep IHsame]]].
  - repeat split; reflexivity.
  - unfold deleteScenario in *; cbn [filter].
    destruct (String.eqb (SavedScenario.id s) id) eqn:E; cbn [negb].
    + apply String.eqb_eq in E.
      split; [exact IHgone |].
      split.
      * intros other Hother; rewrite getScenario_cons.
        rewrite (proj2 (String.eqb_neq _ _)) by congruence.
        apply IHkeep; exact Hother.
      * rewrite getScenario_cons, (proj2 (String.eqb_eq _ _) E); discriminate.
    + split; [rewrite getScenario_cons, E; exact IHgone |].
      split.
      * intros other Hother; rewrite !getScenario_cons.
        destruct (String.eqb (SavedScenario.id s) other);
          [reflexivity | apply IHkeep; exact Hother].
      * rewrite getScenario_cons, E; intros Hnone; rewrite IHsame by exact Hnone.
        reflexivity.
Qed.

Lemma deleteScenario_removes_only_that_id_witness :
  getScenario "b"
    (deleteScenario "a"
       [SavedScenario.mk "a" "first" (DEFAULT_INPUTS EmptyString) "t0" "t0";
        SavedScenario.mk "b" "second" (DEFAULT_INPUTS EmptyString) "t1" "t1"])
  = Some (SavedScenario.mk "b" "second" (DEFAULT_INPUTS EmptyString) "t1" "t1").
Proof.
  rewrite (proj1 (proj2 (deleteScenario_removes_only_that_id "a"
             [SavedScenario.mk "a" "first" (DEFAULT_INPUTS EmptyString) "t0" "t0";
              SavedScenario.mk "b" "second" (DEFAULT_INPUTS EmptyString) "t1" "t1"])));
    [reflexivity | discriminate].
Defined.

(** X24. [updateScenario] and [renameScenario] keep the list in place: the
    identifiers and creation times are unchanged, in order; lookups of other
    identifiers are unchanged; the scenario found under [id] afterwards is
    the one found before with the new inputs (and the new name, when one is
    given) and the new update time; an unknown [id] changes nothing, and a
    rename never touches the inputs. *)
Theorem updateScenario_updates_in_place
    (now id : string) (inputs : PropertyModelInputs.t) (name : option string)
    (prev : list SavedScenario.t) :
  map SavedScenario.id (updateScenario now id inputs name prev)
    = map SavedScenario.id prev /\
  map SavedScenario.createdAt (updateScenario now id inputs name prev)
    = map SavedScenario.createdAt prev /\
  (forall other : string, other <> id ->
     getScenario other (updateScenario now id inputs name prev) = getScenario other prev) /\
  (forall s : SavedScenario.t, getScenario id prev = Some s ->
     getScenario id (updateScenario now id inputs name prev)
     = Some {| SavedScenario.id := id;
               SavedScenario.name :=
                 match name with Some n => n | None => SavedScenario.name s end;
               SavedScenario.inputs := inputs;
               SavedScenario.createdAt := SavedScenario.createdAt s;
               SavedScenario.updatedAt := now |}) /\
  (getScenario id prev = None -> updateScenario now id inputs name prev = prev) /\
  (forall newName : string,
     map SavedScenario.inputs (renameScenario now id newName prev)
       = map SavedScenario.inputs prev /\
     map SavedScenario.id (renameScenario now id newName prev)
       = map SavedScenario.id prev).
Proof.
  induction prev as [| s prev [IHid [IHcreated [IHother [IHfound [IHnone IHrename]]]]]].
  - repeat split; try reflexivity; intros; discriminate.
  - unfold updateScenario, renameScenario in *; cbn [map].
    destruct (String.eqb (SavedScenario.id s) id) eqn:E.
    + pose proof (proj1 (String.eqb_eq _ _) E) as Hid.
      cbn [SavedScenario.id SavedScenario.createdAt SavedScenario.inputs].
      split; [rewrite IHid; reflexivity |].
      split; [rewrite IHcreated; reflexivity |].
      split.
      { intros other Hother; rewrite !getScenario_cons.
        cbn [SavedScenario.id].
        rewrite (proj2 (String.eqb_neq (SavedScenario.id s) other)) by congruence.
        apply IHother; exact Hother. }
      split.
      { intros s0; rewrite !getScenario_cons; cbn [SavedScenario.id]; rewrite E.
        intros Hs; inversion Hs; subst s0; rewrite Hid; reflexivity. }
      split; [rewrite getScenario_cons, E; discriminate |].
      intros newName; destruct (IHrename newName) as [Hin Hids].
      rewrite Hin, Hids; split; reflexivity.
    + split; [rewrite IHid; reflexivity |].
      split; [rewrite IHcreated; reflexivity |].
      split.
      { intros other Hother; rewrite !getScenario_cons.
        destruct (String.eqb (SavedScenario.id s) other);
          [reflexivity | apply IHother; exact Hother]. }
      split.
      { intros s0; rewrite !getScenario_cons, E; apply IHfound. }
      split.
      { rewrite getScenario_cons, E; intros Hnone; rewrite IHnone by exact Hnone.
        reflexivity. }
      intros newName; destruct (IHrename newName) as [Hin Hids].
      rewrite Hin, Hids; split; reflexivity.
Qed.

Lemma updateScenario_updates_in_place_witness :
  getScenario "a"
    (updateScenario "t9" "a" (DEFAULT_INPUTS "2026-01-01") None
       [SavedScenario.mk "a" "first" (DEFAULT_INPUTS EmptyString) "t0" "t0"])
  = Some (SavedScenario.mk "a" "first" (DEFAULT_INPUTS "2026-01-01") "t0" "t9").
Proof.
  apply (proj1 (proj2 (proj2 (proj2
           (updateScenario_updates_in_place "t9" "a" (DEFAULT_INPUTS "2026-01-01") None
              [SavedScenario.mk "a" "first" (DEFAULT_INPUTS EmptyString) "t0" "t0"]))))
           (SavedScenario.mk "a" "first" (DEFAULT_INPUTS EmptyString) "t0" "t0")).
  reflexivity.
Defined.

(** X25. [saveScenario] appends: every scenario found before is still found
    under its identifier, and the new scenario is found under the fresh
    identifier provided no stored scenario already carries it (a lookup
    returns the first match, so a clashing identifier would stay hidden
    behind the older scenario). *)
Theorem saveScenario_then_getScenario
    (newId now name : string) (inputs : PropertyModelInputs.t)
    (prev : list SavedScenario.t) :
  let saved := saveScenario newId now name inputs prev in
  List.length (snd saved) = S (List.length prev) /\
  (forall (id : string) (s : SavedScenario.t),
     getScenario id prev = Some s -> getScenario id (snd saved) = Some s) /\
  (getScenario newId prev = None ->
   getScenario newId (snd saved) = Some (fst saved) /\
   SavedScenario.inputs (fst saved) = inputs /\
   SavedScenario.createdAt (fst saved) = SavedScenario.updatedAt (fst saved)).
Proof.
  intros saved; subst saved; unfold saveScenario; cbn [fst snd].
  split; [rewrite length_app; cbn [List.length]; lia |].
  split.
  - intros id s Hs; rewrite getScenario_app, Hs; reflexivity.
  - intros Hfresh; rewrite getScenario_app, Hfresh, getScenario_cons.
    cbn [SavedScenario.id SavedScenario.inputs SavedScenario.createdAt
         SavedScenario.updatedAt].
    rewrite String.eqb_refl; repeat split; reflexivity.
Qed.

Lemma saveScenario_then_getScenario_witness :
  getScenario "b"
    (snd (saveScenario "b" "t1" "second" (DEFAULT_INPUTS EmptyString)
            [SavedScenario.mk "a" "first" (DEFAULT_INPUTS EmptyString) "t0" "t0"]))
  = Some (fst (saveScenario "b" "t1" "second" (DEFAULT_INPUTS EmptyString)
                 [SavedScenario.mk "a" "first" (DEFAULT_INPUTS EmptyString) "t0" "t0"])).
Proof.
  apply (saveScenario_then_getScenario "b" "t1" "second" (DEFAULT_INPUTS EmptyString)
           [SavedScenario.mk "a" "first" (DEFAULT_INPUTS EmptyString) "t0" "t0"]).
  reflexivity.
Defined.

(** X26. [duplicateScenario] of an unknown identifier returns null and
    leaves the list alone; of a known one it appends a copy with the same
    inputs and the name followed by " (Copy)", the original is still found
    under its identifier, and the copy is found under the fresh identifier
    when no stored scenario carries it. *)
Theorem duplicateScenario_copies_inputs
    (newId now id : string) (scenarios : list SavedScenario.t) :
  (getScenario id scenarios = None ->
   duplicateScenario newId now id scenarios = (None, scenarios)) /\
  (forall original : SavedScenario.t,
     getScenario id scenarios = Some original ->
     exists copy : SavedScenario.t,
       fst (duplicateScenario newId now id scenarios) = Some copy /\
       snd (duplicateScenario newId now id scenarios) = scenarios ++ [copy] /\
       SavedScenario.id copy = newId /\
       SavedScenario.inputs copy = SavedScenario.inputs original /\
       SavedScenario.name copy = String.append (SavedScenario.name original) " (Copy)" /\
       getScenario id (snd (duplicateScenario newId now id scenarios)) = Some original /\
       (getScenario newId scenarios = None ->
        getScenario newId (snd (duplicateScenario newId now id scenarios)) = Some copy)).
Proof.
  unfold duplicateScenario; split.
  - unfold getScenario; intros ->; reflexivity.
  - intros original Hfound.
    assert (Hfind : find (fun s => String.eqb (SavedScenario.id s) id) scenarios
                    = Some original) by exact Hfound.
    rewrite Hfind; cbn [fst snd].
    eexists; split; [reflexivity |].
    split; [reflexivity |].
    cbn [SavedScenario.id SavedScenario.inputs SavedScenario.name].
    repeat split.
    + rewrite getScenario_app, Hfound; reflexivity.
    + intros Hfresh; rewrite getScenario_app, Hfresh, getScenario_cons.
      cbn [SavedScenario.id]; rewrite String.eqb_refl; reflexivity.
Qed.

Lemma duplicateScenario_copies_inputs_witness :
  duplicateScenario "c" "t2" "zz"
    [SavedScenario.mk "a" "first" (DEFAULT_INPUTS EmptyString) "t0" "t0"]
  = (None, [SavedScenario.mk "a" "first" (DEFAULT_INPUTS EmptyString) "t0" "t0"]).
Proof.
  apply (proj1 (duplicateScenario_copies_inputs "c" "t2" "zz"
                  [SavedScenario.mk "a" "first" (DEFAULT_INPUTS EmptyString) "t0" "t0"])).
  reflexivity.
Defined.
